(** * Strategy estimator and telemetry comparator of [utils/f1_data.py]

    A shallow embedding of [get_session_safe], [predict_strategy] and
    [get_detailed_telemetry], with the properties the design document
    states about them.

    Conventions of the embedding:
    - Python floats ([numpy.float64]) are exact rationals [Q]; the
      arithmetic of the source is kept operation by operation, rounding
      error of the binary format is not modelled.
    - A call that can raise returns an [outcome]: [Ret v] or [Raise e].
      [try ... except (ValueError, IndexError, KeyError)] is [try_except],
      which lets every other exception class through.
    - The FastF1 library and the Python built-ins [int] and [str] are the
      external collaborators of the module: they are the fields of the
      class [Collaborators].  [Fixture] gives one concrete instance. *)

From Stdlib Require Import ZArith QArith Qround Qabs List String Ascii Bool Lia Lqa.
From Stdlib Require Import DecimalString.
Import ListNotations.

Local Open Scope string_scope.
Local Open Scope Q_scope.

(* ------------------------------------------------------------------ *)
(** ** Exceptions and outcomes *)

Inductive exn_class : Type :=
| ValueError | IndexError | KeyError
| TypeError | AttributeError | RuntimeError.

(** [exn_str] is what [str(e)] gives. *)
Record exn : Type := mk_exn { exn_cls : exn_class; exn_str : string }.

Inductive outcome (A : Type) : Type :=
| Ret (a : A)
| Raise (e : exn).
Arguments Ret {A} a.
Arguments Raise {A} e.

Definition bind {A B : Type} (m : outcome A) (k : A -> outcome B) : outcome B :=
  match m with
  | Ret a => k a
  | Raise e => Raise e
  end.

Notation "x <- m ;; k" := (bind m (fun x => k))
  (at level 61, m at next level, right associativity).

(** The exception classes named by every [except] clause of the module. *)
Definition caught (c : exn_class) : bool :=
  match c with
  | ValueError | IndexError | KeyError => true
  | _ => false
  end.

Definition try_except {A : Type} (body : outcome A) (handler : exn -> outcome A)
  : outcome A :=
  match body with
  | Ret a => Ret a
  | Raise e => if caught (exn_cls e) then handler e else Raise e
  end.

(* ------------------------------------------------------------------ *)
(** ** Numbers *)

Definition Qsum (l : list Q) : Q := fold_right Qplus 0 l.

(** Round half to even, as [numpy.rint]. *)
Definition rint (x : Q) : Z :=
  let f := Qfloor x in
  match Qcompare (x - inject_Z f) (1 # 2) with
  | Lt => f
  | Gt => (f + 1)%Z
  | Eq => if Z.even f then f else (f + 1)%Z
  end.

(** [round(x, ndigits)] on a [numpy.float64]: scale, [rint], scale back. *)
Definition py_round (x : Q) (ndigits : nat) : Q :=
  let scale := inject_Z (10 ^ Z.of_nat ndigits) in
  Qred (inject_Z (rint (x * scale)) / scale).

(* ------------------------------------------------------------------ *)
(** ** Strings *)

(** [s.split(sep)] for a non-empty [sep]: [skip] counts the characters of a
    separator still to be passed over, [cur] is the piece being built. *)
Fixpoint split_go (sep : string) (skip : nat) (cur s : string) : list string :=
  match s with
  | EmptyString => [cur]
  | String c s' =>
      match skip with
      | S k => split_go sep k cur s'
      | O =>
          if prefix sep s
          then cur :: split_go sep (String.length sep - 1) "" s'
          else split_go sep 0 (cur ++ String c "") s'
      end
  end.

Definition py_split (sep s : string) : list string := split_go sep 0 "" s.

(** [str(v).split(' days ')[-1]] *)
Definition after_days (s : string) : string := last (py_split " days " s) "".

(** [f"{n}"] for an integer. *)
Definition str_of_int (n : Z) : string := NilZero.string_of_int (Z.to_int n).

(** [needle in haystack] for strings. *)
Fixpoint contains (needle haystack : string) : bool :=
  prefix needle haystack ||
  match haystack with
  | EmptyString => false
  | String _ h => contains needle h
  end.

(* ------------------------------------------------------------------ *)
(** ** Data model *)

(** A cell of a pandas frame: missing ([NaN], [NaT], [None]), a float, a
    string, or a duration in nanoseconds. *)
Inductive pyval : Type :=
| PNull
| PNum (q : Q)
| PStr (s : string)
| PTimedelta (ns : Z).

(** A frame with named columns; a row lists its cells in column order. *)
Record DataFrame : Type := mk_df {
  df_columns : list string;
  df_rows : list (list pyval)
}.

(** One row of a frame, as pandas hands it out: the column names and the
    cells of the row. *)
Record Series : Type := mk_series {
  s_index : list string;
  s_values : list pyval
}.

Definition key_error (name : string) : exn := mk_exn KeyError ("'" ++ name ++ "'").

Fixpoint index_of (name : string) (cols : list string) : option nat :=
  match cols with
  | [] => None
  | c :: cols' =>
      if String.eqb c name then Some O
      else option_map S (index_of name cols')
  end.

(** [df[name]] *)
Definition df_col (df : DataFrame) (name : string) : outcome (list pyval) :=
  match index_of name (df_columns df) with
  | Some i => Ret (map (fun row => nth i row PNull) (df_rows df))
  | None => Raise (key_error name)
  end.

Fixpoint mask_rows {A : Type} (rows : list A) (mask : list bool) : list A :=
  match rows, mask with
  | r :: rows', b :: mask' =>
      if b then r :: mask_rows rows' mask' else mask_rows rows' mask'
  | _, _ => []
  end.

(** [df.loc[mask]] for a boolean mask. *)
Definition df_loc (df : DataFrame) (mask : list bool) : DataFrame :=
  mk_df (df_columns df) (mask_rows (df_rows df) mask).

(** [df.empty] *)
Definition df_empty (df : DataFrame) : bool :=
  match df_columns df, df_rows df with
  | _ :: _, _ :: _ => false
  | _, _ => true
  end.

(** [df.iloc[i]] *)
Definition df_iloc (df : DataFrame) (i : nat) : outcome Series :=
  match nth_error (df_rows df) i with
  | Some row => Ret (mk_series (df_columns df) row)
  | None => Raise (mk_exn IndexError "single positional indexer is out-of-bounds")
  end.

(** [row[name]] *)
Definition series_get (row : Series) (name : string) : outcome pyval :=
  match index_of name (s_index row) with
  | Some i => Ret (nth i (s_values row) PNull)
  | None => Raise (key_error name)
  end.

(** [cell == x] for a float [x], elementwise: a missing or non-numeric cell
    compares unequal. *)
Definition pyval_eq_num (v : pyval) (x : Q) : bool :=
  match v with
  | PNum q => Qeq_bool q x
  | _ => false
  end.

(** A lap of a session: [LapNumber] is a float column, [LapTime] a duration
    column (nanoseconds); [None] is a missing value. *)
Record Lap : Type := mk_lap {
  LapNumber : option Q;
  LapTime : option Z;
  Driver : string
}.

Definition lap_time_cell (l : Lap) : pyval :=
  match LapTime l with
  | Some ns => PTimedelta ns
  | None => PNull
  end.

Record Session : Type := mk_session {
  laps : list Lap;
  results : DataFrame;
  EventName : string
}.

(** [.dt.total_seconds()] *)
Definition total_seconds (ns : Z) : Q := inject_Z ns / inject_Z 1000000000.

(** [dropna] on the columns [LapNumber] and [LapTime]: the rows that have
    both, as (lap number, lap time). *)
Fixpoint dropna (ls : list Lap) : list (Q * Z) :=
  match ls with
  | [] => []
  | l :: ls' =>
      match LapNumber l, LapTime l with
      | Some n, Some t => (n, t) :: dropna ls'
      | _, _ => dropna ls'
      end
  end.

(** The argument type [int | str] of [stops] and [year]. *)
Inductive int_or_str : Type :=
| IntArg (n : Z)
| StrArg (s : string).

(** The external collaborators: FastF1 and the Python built-ins. *)
Class Collaborators : Type := {
  (** [fastf1.get_session(year, track, session_type)] followed by
      [session.load()] *)
  fastf1_get_session : Z -> string -> string -> outcome Session;
  (** [laps.pick_driver(d)], [laps.pick_quicklaps()], [laps.pick_fastest()] *)
  pick_driver : list Lap -> string -> list Lap;
  pick_quicklaps : list Lap -> list Lap;
  pick_fastest : list Lap -> option Lap;
  (** [lap.get_telemetry()] *)
  get_telemetry : Lap -> outcome DataFrame;
  (** [int(s)] for a string: [None] when the text is no integer literal *)
  int_of_str : string -> option Z;
  (** [str(v)] for a cell *)
  py_str : pyval -> string
}.

(* ------------------------------------------------------------------ *)
(** ** scikit-learn's [LinearRegression], one feature, exact arithmetic *)

Module LinearRegression.

Record t : Type := mk { coef_ : Q; intercept_ : Q }.

Definition mean (l : list Q) : Q := Qsum l / inject_Z (Z.of_nat (List.length l)).

Definition no_samples : exn :=
  mk_exn ValueError
    "Found array with 0 sample(s) (shape=(0, 1)) while a minimum of 1 is required by LinearRegression.".

(** Least squares on centred data; when all abscissae coincide the
    minimum-norm solution has slope 0.  An empty sample is rejected by
    input validation. *)
Definition fit (X y : list Q) : outcome t :=
  match X with
  | [] => Raise no_samples
  | _ :: _ =>
      let x_mean := mean X in
      let y_mean := mean y in
      let sxx := Qsum (map (fun x => (x - x_mean) * (x - x_mean)) X) in
      let sxy := Qsum (map (fun p => (fst p - x_mean) * (snd p - y_mean))
                           (combine X y)) in
      let coef := if Qeq_bool sxx 0 then 0 else sxy / sxx in
      Ret (mk (Qred coef) (Qred (y_mean - x_mean * coef)))
  end.

Definition predict (m : t) (X : list Q) : list Q :=
  map (fun x => x * coef_ m + intercept_ m) X.

End LinearRegression.

(** [np.arange(lo, hi)] *)
Definition arange (lo hi : nat) : list Q :=
  map (fun n => inject_Z (Z.of_nat n)) (seq lo (hi - lo)).

Definition enumerate {A : Type} (l : list A) : list (nat * A) :=
  combine (seq 0 (List.length l)) l.

(* ------------------------------------------------------------------ *)
(** ** The module's functions *)

(** The dict returned by [predict_strategy]. *)
Record StrategyEstimate : Type := mk_estimate {
  total_time_min : Q;
  degradation : Q;
  stop_recommendation : string
}.

(** The dicts built by [get_detailed_telemetry]. *)
Record PaceSeries : Type := mk_pace {
  pace_driver : string;
  pace_x : list Q;
  pace_y : list Q
}.

Record SpeedTrace : Type := mk_trace {
  trace_driver : string;
  trace_distance : list pyval;
  trace_speed : list pyval;
  trace_lap_time : string
}.

Record WinnerInfo : Type := mk_winner {
  winner_name : pyval;
  winner_team : pyval;
  winner_time : string
}.

Record TelemetryComparison : Type := mk_comparison {
  race_name : string;
  pace_data : list PaceSeries;
  telemetry_data : list SpeedTrace;
  winner_info : WinnerInfo
}.

(** The dict returned by [get_circuit_layout]. *)
Record CircuitLayout : Type := mk_layout {
  layout_x : list pyval;
  layout_y : list pyval;
  layout_name : string
}.

(** The template variables the route [simulator] of [app.py] fills on a
    POST.  [mapJSON] is the serialised figure; it stands here as the layout
    the figure is drawn from. *)
Record SimulatorPage : Type := mk_simulator_page {
  page_result : option StrategyEstimate;
  page_map : option CircuitLayout;
  page_error : option string
}.

(** The template variables [data] and [error] of the route [telemetry]. *)
Record TelemetryPage : Type := mk_telemetry_page {
  tpage_data : option TelemetryComparison;
  tpage_error : option string
}.

(** [if err:] for [err : str | None]: the empty string is false. *)
Definition truthy_str (err : option string) : bool :=
  match err with
  | Some msg => negb (String.eqb msg "")
  | None => false
  end.

(** [if data:] for a dict with keys, or [None]. *)
Definition truthy_dict {A : Type} (data : option A) : bool :=
  match data with
  | Some _ => true
  | None => false
  end.

Definition is_empty {A : Type} (l : list A) : bool :=
  match l with
  | [] => true
  | _ :: _ => false
  end.

Section Functions.

Context {collaborators : Collaborators}.

(** [int(v)] for [v : int | str] *)
Definition py_int (v : int_or_str) : outcome Z :=
  match v with
  | IntArg n => Ret n
  | StrArg s =>
      match int_of_str s with
      | Some n => Ret n
      | None =>
          Raise (mk_exn ValueError
                   ("invalid literal for int() with base 10: '" ++ s ++ "'"))
      end
  end.

(** [f"{v}"] for [v : int | str] *)
Definition fmt_int_or_str (v : int_or_str) : string :=
  match v with
  | IntArg n => str_of_int n
  | StrArg s => s
  end.

(** [get_session_safe], lines 51-70. *)
Definition get_session_safe (year : int_or_str) (track session_type : string)
  : outcome (option Session) :=
  try_except
    (y <- py_int year ;;
     session <- fastf1_get_session y track session_type ;;
     Ret (Some session))
    (fun _ => Ret None).

(** [get_circuit_layout], lines 73-103. *)
Definition get_circuit_layout (track : string) : outcome (option CircuitLayout) :=
  session <- get_session_safe (IntArg 2023) track "Q" ;;
  match session with
  | None => Ret None
  | Some session =>
      try_except
        (match pick_fastest (laps session) with
         | None =>
             Raise (mk_exn AttributeError
                      "'NoneType' object has no attribute 'get_telemetry'")
         | Some lap =>
             telemetry <- get_telemetry lap ;;
             x <- df_col telemetry "X" ;;
             y <- df_col telemetry "Y" ;;
             Ret (Some (mk_layout x y (EventName session)))
         end)
        (fun _ => Ret None)
  end.

(** Lines 152-156: the pit windows for a stop count. *)
Definition stop_laps_for (stops : Z) : list Z :=
  if (stops =? 1)%Z then [25%Z]
  else if (stops =? 2)%Z then [18%Z; 38%Z]
  else [].

(** Lines 159-171: the body of the aggregation loop, on the running total. *)
Definition lap_step (compound : string) (stop_laps : list Z) (stop_penalty : Q)
           (race_time_total : Q) (item : nat * Q) : Q :=
  let '(i, time) := item in
  let lap_num := (Z.of_nat i + 1)%Z in
  let adjusted_time := time in
  let adjusted_time :=
    if String.eqb compound "SOFT" then adjusted_time - (1 # 2)
    else if String.eqb compound "HARD" then adjusted_time + (1 # 2)
    else adjusted_time in
  let adjusted_time :=
    if existsb (Z.eqb lap_num) stop_laps then adjusted_time + stop_penalty
    else adjusted_time in
  race_time_total + adjusted_time.

(** Lines 173-175. *)
Definition stop_string (stops : Z) (stop_laps : list Z) : string :=
  if (0 <? stops)%Z
  then String.concat ", " (map (fun x => "Lap " ++ str_of_int x) stop_laps)
  else "No Stops".

(** The training set of lines 132-137: representative laps with a lap number
    and a lap time. *)
Definition training_laps (session : Session) : list (Q * Z) :=
  dropna (pick_quicklaps (laps session)).

(** [predict_strategy], lines 106-184. *)
Definition predict_strategy (track compound : string) (stops : int_or_str)
  : outcome (option StrategyEstimate * option string) :=
  session <- get_session_safe (IntArg 2023) track "R" ;;
  match session with
  | None => Ret (None, Some "Historical data unavailable for this track.")
  | Some session =>
      try_except
        (let laps := training_laps session in
         let X := map fst laps in
         let y := map (fun r => total_seconds (snd r)) laps in
         model <- LinearRegression.fit X y ;;
         let future_laps := arange 1 58 in
         let base_pace := LinearRegression.predict model future_laps in
         stops <- py_int stops ;;
         let stop_penalty := 22 in
         let stop_laps := stop_laps_for stops in
         let race_time_total :=
           fold_left (lap_step compound stop_laps stop_penalty)
                     (enumerate base_pace) 0 in
         let stop_str := stop_string stops stop_laps in
         Ret (Some (mk_estimate (py_round (race_time_total / 60) 2)
                                (py_round (LinearRegression.coef_ model) 4)
                                stop_str),
              None))
        (fun e => Ret (None, Some (exn_str e)))
  end.

(** [extract_tel], lines 242-264.  [lap] is what [pick_fastest] returned;
    calling a method on [None] is an [AttributeError]. *)
Definition extract_tel (lap : option Lap) (driver_code : string)
  : outcome (option SpeedTrace) :=
  try_except
    (match lap with
     | None =>
         Raise (mk_exn AttributeError
                  "'NoneType' object has no attribute 'get_telemetry'")
     | Some lap =>
         tel <- get_telemetry lap ;;
         distance <- df_col tel "Distance" ;;
         speed <- df_col tel "Speed" ;;
         Ret (Some (mk_trace driver_code distance speed
                      (substring 0 10 (after_days (py_str (lap_time_cell lap))))))
     end)
    (fun _ => Ret None).

Definition placeholder_winner : WinnerInfo :=
  mk_winner (PStr "N/A") (PStr "N/A") "N/A".

(** Lines 274-287: the winner block with its own handler. *)
Definition resolve_winner (session : Session) : outcome WinnerInfo :=
  try_except
    (position <- df_col (results session) "Position" ;;
     let winner_df :=
       df_loc (results session) (map (fun v => pyval_eq_num v 1) position) in
     if df_empty winner_df
     then Raise (mk_exn IndexError "No driver found with Position 1.0")
     else
       winner_row <- df_iloc winner_df 0 ;;
       name <- series_get winner_row "Abbreviation" ;;
       team <- series_get winner_row "TeamName" ;;
       time <- series_get winner_row "Time" ;;
       Ret (mk_winner name team (after_days (py_str time))))
    (fun _ => Ret placeholder_winner).

(** Lines 226-234: one driver's pace series. *)
Definition pace_series (item : string * list Lap) : PaceSeries :=
  let '(d, laps) := item in
  let df := dropna laps in
  mk_pace d (map fst df) (map (fun r => total_seconds (snd r)) df).

(** [get_detailed_telemetry], lines 187-297. *)
Definition get_detailed_telemetry (year : int_or_str) (race d1 d2 : string)
  : outcome (option TelemetryComparison * option string) :=
  session <- get_session_safe year race "R" ;;
  match session with
  | None =>
      Ret (None,
           Some ("Session data not found for " ++ race ++ " " ++ fmt_int_or_str year))
  | Some session =>
      try_except
        (let laps_d1 := pick_quicklaps (pick_driver (laps session) d1) in
         let laps_d2 := pick_quicklaps (pick_driver (laps session) d2) in
         if is_empty laps_d1 || is_empty laps_d2
         then Ret (None, Some "Driver data unavailable.")
         else
           let pace_data := map pace_series [(d1, laps_d1); (d2, laps_d2)] in
           let fastest_d1 := pick_fastest laps_d1 in
           let fastest_d2 := pick_fastest laps_d2 in
           let telemetry_data : list SpeedTrace := [] in
           t1 <- extract_tel fastest_d1 d1 ;;
           t2 <- extract_tel fastest_d2 d2 ;;
           let telemetry_data :=
             match t1 with
             | Some t => (telemetry_data ++ [t])%list
             | None => telemetry_data
             end in
           let telemetry_data :=
             match t2 with
             | Some t => (telemetry_data ++ [t])%list
             | None => telemetry_data
             end in
           winner_info <- resolve_winner session ;;
           Ret (Some (mk_comparison (EventName session) pace_data
                                    telemetry_data winner_info),
                None))
        (fun e => Ret (None, Some (exn_str e)))
  end.

(** [simulator] of [app.py] on a POST whose form has the three fields,
    lines 38-75: the layout first, then the estimate; [error] is set when
    the error string is true, else [result] when the estimate is. *)
Definition simulator_post (track compound stops : string) : outcome SimulatorPage :=
  circuit_data <- get_circuit_layout track ;;
  let mapJSON := if truthy_dict circuit_data then circuit_data else None in
  r <- predict_strategy track compound (StrArg stops) ;;
  let '(data, err) := r in
  let error := if truthy_str err then err else None in
  let result :=
    if truthy_str err then None
    else if truthy_dict data then data else None in
  Ret (mk_simulator_page result mapJSON error).

(** [telemetry] of [app.py] on a POST whose form has the four fields,
    lines 95-106. *)
Definition telemetry_post (year race d1 d2 : string) : outcome TelemetryPage :=
  r <- get_detailed_telemetry (StrArg year) race d1 d2 ;;
  let '(result, err) := r in
  let error := if truthy_str err then err else None in
  let data :=
    if truthy_str err then None
    else if truthy_dict result then result else None in
  Ret (mk_telemetry_page data error).

End Functions.

(* ------------------------------------------------------------------ *)
(** ** The results as the design document words them *)

(** Lap numbers 1..57 of the fixed race distance. *)
Definition race_laps : list Z := map Z.of_nat (seq 1 57).

(** The pit-stop table: 1 stop, lap 25; 2 stops, laps 18 and 38; no entry
    for any other count. *)
Definition pit_stop_table (stop_count : Z) : list Z :=
  match stop_count with
  | 1%Z => [25%Z]
  | 2%Z => [18%Z; 38%Z]
  | _ => []
  end.

Definition compound_adjustment (compound : string) : Q :=
  if string_dec compound "SOFT" then - (1 # 2)
  else if string_dec compound "HARD" then 1 # 2
  else 0.

Definition pit_loss (stop_count lap : Z) : Q :=
  if in_dec Z.eq_dec lap (pit_stop_table stop_count) then 22 else 0.

(** The fitted line at a lap number. *)
Definition fitted_pace (m : LinearRegression.t) (lap : Z) : Q :=
  LinearRegression.intercept_ m + LinearRegression.coef_ m * inject_Z lap.

(** The sum over laps 1..57 of the adjusted lap time. *)
Definition adjusted_race_seconds (m : LinearRegression.t) (compound : string)
           (stop_count : Z) : Q :=
  Qsum (map (fun lap => fitted_pace m lap + compound_adjustment compound
                        + pit_loss stop_count lap)
            race_laps).

(** The regression of lap time in seconds against lap number over the
    training laps of a session. *)
Definition fitted_line {collaborators : Collaborators} (session : Session)
  : outcome LinearRegression.t :=
  LinearRegression.fit
    (map fst (training_laps session))
    (map (fun r => total_seconds (snd r)) (training_laps session)).

(** A driver's representative laps in a session. *)
Definition representative_laps {collaborators : Collaborators}
           (session : Session) (driver : string) : list Lap :=
  pick_quicklaps (pick_driver (laps session) driver).

(** The cell of a results row under a column name, if the column exists. *)
Definition cell (cols : list string) (row : list pyval) (name : string)
  : option pyval :=
  option_map (fun i => nth i row PNull) (index_of name cols).

Definition finished_first (cols : list string) (row : list pyval) : bool :=
  match cell cols row "Position" with
  | Some v => pyval_eq_num v 1
  | None => false
  end.

(** The winner block as described: the first row whose finishing position is
    1, with its three fields; placeholders when there is no such row or a
    field is not there. *)
Definition described_winner (str : pyval -> string) (df : DataFrame) : WinnerInfo :=
  match find (finished_first (df_columns df)) (df_rows df) with
  | Some row =>
      match cell (df_columns df) row "Abbreviation",
            cell (df_columns df) row "TeamName",
            cell (df_columns df) row "Time" with
      | Some name, Some team, Some time =>
          mk_winner name team (after_days (str time))
      | _, _, _ => mk_winner (PStr "N/A") (PStr "N/A") "N/A"
      end
  | None => mk_winner (PStr "N/A") (PStr "N/A") "N/A"
  end.

(* ------------------------------------------------------------------ *)
(** ** A fixture: three small sessions and simple collaborators *)

Module Fixture.

Definition is_digit (c : ascii) : bool :=
  let n := nat_of_ascii c in (48 <=? n)%nat && (n <=? 57)%nat.

Fixpoint digits_value (acc : Z) (s : string) : option Z :=
  match s with
  | EmptyString => Some acc
  | String c s' =>
      if is_digit c
      then digits_value (10 * acc + Z.of_nat (nat_of_ascii c - 48)) s'
      else None
  end.

(** Decimal literals with an optional sign. *)
Definition int_of_str (s : string) : option Z :=
  match s with
  | EmptyString => None
  | String "-" (String c r) => option_map Z.opp (digits_value 0 (String c r))
  | String "+" (String c r) => digits_value 0 (String c r)
  | _ => digits_value 0 s
  end.

Definition pad (width : nat) (n : Z) : string :=
  let s := str_of_int n in
  let fix zeros (k : nat) : string :=
    match k with
    | O => ""
    | S k' => String "0" (zeros k')
    end in
  zeros (width - String.length s)%nat ++ s.

(** [str] of a duration, in the long format of pandas. *)
Definition str_timedelta (ns : Z) : string :=
  let days := (ns / 86400000000000)%Z in
  let r := (ns mod 86400000000000)%Z in
  let secs := (r / 1000000000)%Z in
  let frac := (r mod 1000000000)%Z in
  str_of_int days ++ " days " ++ (if (ns <? 0)%Z then "+" else "")
    ++ pad 2 (secs / 3600) ++ ":" ++ pad 2 ((secs / 60) mod 60) ++ ":"
    ++ pad 2 (secs mod 60)
    ++ (if (frac =? 0)%Z then ""
        else "." ++ pad 6 (frac / 1000)
             ++ (if (frac mod 1000 =? 0)%Z then "" else pad 3 (frac mod 1000))).

Definition py_str (v : pyval) : string :=
  match v with
  | PNull => "NaT"
  | PNum q => str_of_int (Qfloor q) ++ ".0"
  | PStr s => s
  | PTimedelta ns => str_timedelta ns
  end.

Definition pick_driver (ls : list Lap) (d : string) : list Lap :=
  filter (fun l => String.eqb (Driver l) d) ls.

Fixpoint min_time (ls : list Lap) : option Z :=
  match ls with
  | [] => None
  | l :: ls' =>
      match LapTime l, min_time ls' with
      | Some t, Some m => Some (Z.min t m)
      | Some t, None => Some t
      | None, m => m
      end
  end.

(** Laps quicker than 107 % of the quickest lap of the frame. *)
Definition pick_quicklaps (ls : list Lap) : list Lap :=
  match min_time ls with
  | None => []
  | Some m =>
      filter (fun l => match LapTime l with
                       | Some t => (100 * t <? 107 * m)%Z
                       | None => false
                       end) ls
  end.

Definition pick_fastest (ls : list Lap) : option Lap :=
  match min_time ls with
  | None => None
  | Some m => find (fun l => match LapTime l with
                             | Some t => (t =? m)%Z
                             | None => false
                             end) ls
  end.

Definition sec (s : Z) : Z := (s * 1000000000)%Z.
Definition ms (s : Z) : Z := (s * 1000000)%Z.

Definition lap (n : Z) (t : Z) (d : string) : Lap :=
  mk_lap (Some (inject_Z n)) (Some t) d.

(** A race with a steady trend; HAM has no timed lap. *)
Definition bahrain : Session :=
  mk_session
    [ lap 1 (ms 97000) "VER"; lap 1 (ms 98000) "PER";
      lap 2 (ms 97200) "VER"; lap 2 (ms 98100) "PER";
      lap 3 (ms 97100) "VER"; lap 3 (ms 98500) "PER";
      lap 4 (ms 97500) "VER"; lap 4 (ms 120000) "PER";
      mk_lap (Some 5) None "HAM" ]
    (mk_df ["Position"; "Abbreviation"; "TeamName"; "Time"]
           [ [PNum 2; PStr "PER"; PStr "Red Bull Racing"; PTimedelta (ms 11987)];
             [PNum 1; PStr "VER"; PStr "Red Bull Racing"; PTimedelta (ms 5636736)] ])
    "Bahrain Grand Prix".

(** Only two late laps are representative, the second much slower; the
    classification has no first place. *)
Definition monaco : Session :=
  mk_session
    [ lap 59 (ms 125000) "LEC"; lap 60 (ms 100000) "LEC"; lap 61 (ms 106000) "LEC" ]
    (mk_df ["Position"; "Abbreviation"; "TeamName"; "Time"]
           [ [PNull; PStr "LEC"; PStr "Ferrari"; PNull] ])
    "Monaco Grand Prix".

(** No lap has a lap time. *)
Definition spain : Session :=
  mk_session
    [ mk_lap (Some 1) None "SAI"; mk_lap (Some 2) None "ALO" ]
    (mk_df ["Abbreviation"; "TeamName"] [])
    "Spanish Grand Prix".

Definition fastf1_get_session (year : Z) (track session_type : string)
  : outcome Session :=
  if (year =? 2023)%Z && String.eqb session_type "R" then
    if String.eqb track "Bahrain" then Ret bahrain
    else if String.eqb track "Monaco" then Ret monaco
    else if String.eqb track "Spain" then Ret spain
    else Raise (mk_exn ValueError "No event found")
  else Raise (mk_exn ValueError "No event found").

(** Car data exist for every driver but PER. *)
Definition get_telemetry (l : Lap) : outcome DataFrame :=
  if String.eqb (Driver l) "PER" then Raise (key_error "11")
  else Ret (mk_df ["Distance"; "Speed"]
                  [ [PNum 0; PNum 280]; [PNum 100; PNum 295]; [PNum 200; PNum 310] ]).

#[export] Instance collaborators : Collaborators := {
  fastf1_get_session := fastf1_get_session;
  pick_driver := pick_driver;
  pick_quicklaps := pick_quicklaps;
  pick_fastest := pick_fastest;
  get_telemetry := get_telemetry;
  int_of_str := int_of_str;
  py_str := py_str
}.

End Fixture.

(* ------------------------------------------------------------------ *)
(** ** A second fixture: qualifying sessions and awkward data *)

Module Weekend.

Definition bahrain_quali : Session :=
  mk_session
    [ Fixture.lap 3 (Fixture.ms 90100) "VER"; Fixture.lap 6 (Fixture.ms 89708) "VER";
      Fixture.lap 5 (Fixture.ms 89846) "PIA" ]
    (mk_df ["Position"; "Abbreviation"] [])
    "Bahrain Grand Prix".

(** No lap of the session has a lap time. *)
Definition monaco_quali : Session :=
  mk_session [ mk_lap (Some 1) None "LEC" ] (mk_df [] []) "Monaco Grand Prix".

(** ALO holds the fastest lap; his telemetry has no [Y] column. *)
Definition spain_quali : Session :=
  mk_session [ Fixture.lap 4 (Fixture.ms 72272) "ALO" ] (mk_df [] [])
             "Spanish Grand Prix".

(** STR holds the fastest lap; reading his telemetry fails with an error of
    a class no handler names. *)
Definition canada_quali : Session :=
  mk_session [ Fixture.lap 2 (Fixture.ms 85858) "STR" ] (mk_df [] [])
             "Canadian Grand Prix".

(** A race in which SAR has timed laps, none of them marked as his best. *)
Definition jeddah : Session :=
  mk_session
    [ Fixture.lap 1 (Fixture.ms 95000) "ALB"; Fixture.lap 1 (Fixture.ms 95400) "SAR";
      Fixture.lap 2 (Fixture.ms 94800) "ALB"; Fixture.lap 2 (Fixture.ms 95100) "SAR" ]
    (mk_df ["Position"; "Abbreviation"; "TeamName"; "Time"]
           [ [PNum 1; PStr "PER"; PStr "Red Bull Racing"; PTimedelta (Fixture.ms 5003596)] ])
    "Saudi Arabian Grand Prix".

Definition fastf1_get_session (year : Z) (track session_type : string)
  : outcome Session :=
  if (year =? 2023)%Z && String.eqb session_type "Q" then
    if String.eqb track "Bahrain" then Ret bahrain_quali
    else if String.eqb track "Monaco" then Ret monaco_quali
    else if String.eqb track "Spain" then Ret spain_quali
    else if String.eqb track "Canada" then Ret canada_quali
    else if String.eqb track "Qatar" then Raise (mk_exn RuntimeError "connection reset")
    else Raise (mk_exn ValueError "No event found")
  else if (year =? 2023)%Z && String.eqb session_type "R"
          && String.eqb track "Saudi Arabia" then Ret jeddah
  else if (year =? 2023)%Z && String.eqb session_type "R"
          && String.eqb track "Qatar" then Raise (mk_exn RuntimeError "connection reset")
  else Fixture.fastf1_get_session year track session_type.

Definition pick_fastest (ls : list Lap) : option Lap :=
  match ls with
  | l :: _ => if String.eqb (Driver l) "SAR" then None else Fixture.pick_fastest ls
  | [] => None
  end.

Definition get_telemetry (l : Lap) : outcome DataFrame :=
  if String.eqb (Driver l) "ALO" then Ret (mk_df ["X"] [ [PNum 10]; [PNum 12] ])
  else if String.eqb (Driver l) "STR" then Raise (mk_exn RuntimeError "no car data")
  else if String.eqb (Driver l) "PER" then Raise (key_error "11")
  else Ret (mk_df ["X"; "Y"; "Distance"; "Speed"]
                  [ [PNum 10; PNum (-4); PNum 0; PNum 280];
                    [PNum 12; PNum (-3); PNum 100; PNum 295];
                    [PNum 15; PNum (-1); PNum 200; PNum 310] ]).

#[export] Instance collaborators : Collaborators := {
  fastf1_get_session := fastf1_get_session;
  pick_driver := Fixture.pick_driver;
  pick_quicklaps := Fixture.pick_quicklaps;
  pick_fastest := pick_fastest;
  get_telemetry := get_telemetry;
  int_of_str := Fixture.int_of_str;
  py_str := Fixture.py_str
}.

End Weekend.

(* ------------------------------------------------------------------ *)
(** ** Rounding *)

Lemma rint_compat (x y : Q) : x == y -> rint x = rint y.
Proof.
  intros E. unfold rint.
  assert (F : Qfloor x = Qfloor y) by (now rewrite E).
  rewrite F.
  assert (C : Qcompare (x - inject_Z (Qfloor y)) (1 # 2)
              = Qcompare (y - inject_Z (Qfloor y)) (1 # 2)) by (now rewrite E).
  now rewrite C.
Qed.

Lemma inject_Z_succ (z : Z) : inject_Z (z + 1) == inject_Z z + 1.
Proof. rewrite inject_Z_plus. reflexivity. Qed.

Lemma Qdiv_60 (x : Q) : x / 60 == x * (1 # 60).
Proof. reflexivity. Qed.

Lemma rint_lower (x : Q) : x - (1 # 2) <= inject_Z (rint x).
Proof.
  unfold rint.
  pose proof (Qfloor_le x) as Hlo.
  pose proof (Qlt_floor x) as Hhi.
  rewrite inject_Z_succ in Hhi.
  destruct (Qcompare_spec (x - inject_Z (Qfloor x)) (1 # 2)) as [E | L | G].
  - destruct (Z.even (Qfloor x)); rewrite ?inject_Z_succ; lra.
  - lra.
  - rewrite inject_Z_succ. lra.
Qed.

Lemma rint_upper (x : Q) : inject_Z (rint x) <= x + (1 # 2).
Proof.
  unfold rint.
  pose proof (Qfloor_le x) as Hlo.
  pose proof (Qlt_floor x) as Hhi.
  rewrite inject_Z_succ in Hhi.
  destruct (Qcompare_spec (x - inject_Z (Qfloor x)) (1 # 2)) as [E | L | G].
  - destruct (Z.even (Qfloor x)); rewrite ?inject_Z_succ; lra.
  - lra.
  - rewrite inject_Z_succ. lra.
Qed.

(** Values more than one unit apart keep their order under [rint]. *)
Lemma rint_lt (x y : Q) : x + 1 < y -> (rint x < rint y)%Z.
Proof.
  intros H.
  pose proof (rint_upper x). pose proof (rint_lower y).
  rewrite Zlt_Qlt. lra.
Qed.

Lemma rint_pos_iff (x : Q) : (0 < rint x)%Z <-> 1 # 2 < x.
Proof.
  split; intros H.
  - destruct (Qlt_le_dec (1 # 2) x) as [L | L]; [exact L | exfalso].
    destruct (Qle_lt_or_eq _ _ L) as [L' | E].
    + pose proof (rint_upper x) as U.
      assert (B : inject_Z (rint x) < inject_Z 1) by (change (inject_Z 1) with 1; lra).
      rewrite <- Zlt_Qlt in B. lia.
    + rewrite (rint_compat x (1 # 2) E) in H. vm_compute in H. discriminate.
  - pose proof (rint_lower x) as Lo.
    rewrite Zlt_Qlt. change (inject_Z 0) with 0. lra.
Qed.


Lemma py_round_2 (x : Q) : py_round x 2 == inject_Z (rint (x * 100)) / 100.
Proof.
  unfold py_round. rewrite Qred_correct. reflexivity.
Qed.

Lemma py_round_2_lt (x y : Q) : x + (1 # 100) < y -> py_round x 2 < py_round y 2.
Proof.
  intros H. rewrite !py_round_2.
  assert (L : (rint (x * 100) < rint (y * 100))%Z) by (apply rint_lt; lra).
  rewrite Zlt_Qlt in L.
  apply Qmult_lt_compat_r; [reflexivity | exact L].
Qed.

Lemma py_round_2_pos_iff (x : Q) : 0 < py_round x 2 <-> 1 # 200 < x.
Proof.
  rewrite py_round_2.
  assert (R : 0 < inject_Z (rint (x * 100)) / 100 <-> (0 < rint (x * 100))%Z).
  { rewrite Zlt_Qlt. change (inject_Z 0) with 0. split; intros H.
    - apply Qmult_lt_r with (z := / 100); [reflexivity | ].
      unfold Qdiv in H. lra.
    - unfold Qdiv. apply Qmult_lt_r with (z := 100); [reflexivity | ].
      field_simplify. lra. }
  rewrite R, rint_pos_iff. split; intros; lra.
Qed.

(* ------------------------------------------------------------------ *)
(** ** Sums and the aggregation loop *)

Lemma Qsum_map_ext {A : Type} (f g : A -> Q) (l : list A) :
  (forall a, In a l -> f a == g a) -> Qsum (map f l) == Qsum (map g l).
Proof.
  induction l as [| a l IH]; intros H; simpl.
  - reflexivity.
  - rewrite (H a (or_introl eq_refl)), IH; [reflexivity |].
    intros b Hb. apply H. now right.
Qed.

Lemma Qsum_map_shift {A : Type} (f : A -> Q) (d : Q) (l : list A) :
  Qsum (map (fun a => f a + d) l)
  == Qsum (map f l) + inject_Z (Z.of_nat (List.length l)) * d.
Proof.
  induction l as [| a l IH].
  - simpl. change (inject_Z 0) with 0. ring.
  - cbn [map Qsum fold_right List.length]. unfold Qsum in IH. rewrite IH.
    rewrite Nat2Z.inj_succ. unfold Z.succ. rewrite inject_Z_succ. ring.
Qed.

Lemma existsb_eqb_In (x : Z) (l : list Z) : existsb (Z.eqb x) l = true <-> In x l.
Proof.
  rewrite existsb_exists. split.
  - intros [y [Hy E]]. apply Z.eqb_eq in E. now subst.
  - intros H. exists x. split; [exact H | apply Z.eqb_refl].
Qed.

Lemma stop_laps_table (n : Z) : stop_laps_for n = pit_stop_table n.
Proof.
  unfold stop_laps_for, pit_stop_table.
  destruct (Z.eqb_spec n 1) as [-> | N1]; [reflexivity |].
  destruct (Z.eqb_spec n 2) as [-> | N2]; [reflexivity |].
  destruct n as [| [p | [p | p |] |] | p]; try reflexivity; congruence.
Qed.

Lemma enumerate_map_seq {A : Type} (g : nat -> A) (n k : nat) :
  combine (seq k n) (map g (seq (S k) n)) = map (fun j => (j, g (S j))) (seq k n).
Proof.
  revert k. induction n as [| n IH]; intros k; simpl.
  - reflexivity.
  - f_equal. apply IH.
Qed.

Section Loop.

Variables (compound : string) (stop_laps : list Z) (stop_penalty : Q).

Lemma lap_step_acc (acc : Q) (item : nat * Q) :
  lap_step compound stop_laps stop_penalty acc item
  == acc + lap_step compound stop_laps stop_penalty 0 item.
Proof.
  destruct item as [i time]. unfold lap_step.
  destruct (String.eqb compound "SOFT"), (String.eqb compound "HARD"),
    (existsb (Z.eqb (Z.of_nat i + 1)) stop_laps); ring.
Qed.

Lemma fold_lap_step (items : list (nat * Q)) (acc : Q) :
  fold_left (lap_step compound stop_laps stop_penalty) items acc
  == acc + Qsum (map (lap_step compound stop_laps stop_penalty 0) items).
Proof.
  revert acc. induction items as [| item items IH]; intros acc; simpl.
  - ring.
  - rewrite IH, lap_step_acc. ring.
Qed.

End Loop.

(** One pass of the loop body is the adjusted lap time of the description. *)
Lemma lap_step_adjusted (m : LinearRegression.t) (compound : string) (n : Z) (j : nat) :
  lap_step compound (stop_laps_for n) 22 0
    (j, inject_Z (Z.of_nat (S j)) * LinearRegression.coef_ m
        + LinearRegression.intercept_ m)
  == fitted_pace m (Z.of_nat (S j)) + compound_adjustment compound
     + pit_loss n (Z.of_nat (S j)).
Proof.
  unfold lap_step, fitted_pace, compound_adjustment, pit_loss.
  rewrite stop_laps_table.
  replace (Z.of_nat j + 1)%Z with (Z.of_nat (S j)) by lia.
  destruct (in_dec Z.eq_dec (Z.of_nat (S j)) (pit_stop_table n)) as [I | I].
  - apply existsb_eqb_In in I. rewrite I.
    destruct (String.eqb_spec compound "SOFT") as [-> | NS].
    + simpl. ring.
    + destruct (string_dec compound "SOFT"); [contradiction |].
      destruct (String.eqb_spec compound "HARD") as [-> | NH].
      * simpl. ring.
      * destruct (string_dec compound "HARD"); [contradiction |]. ring.
  - assert (E : existsb (Z.eqb (Z.of_nat (S j))) (pit_stop_table n) = false).
    { destruct (existsb _ _) eqn:X; [| reflexivity].
      apply existsb_eqb_In in X. contradiction. }
    rewrite E.
    destruct (String.eqb_spec compound "SOFT") as [-> | NS].
    + simpl. ring.
    + destruct (string_dec compound "SOFT"); [contradiction |].
      destruct (String.eqb_spec compound "HARD") as [-> | NH].
      * simpl. ring.
      * destruct (string_dec compound "HARD"); [contradiction |]. ring.
Qed.

(** The running total of lines 149-171 is the sum of the 57 adjusted laps. *)
Lemma race_time_total_sum (m : LinearRegression.t) (compound : string) (n : Z) :
  fold_left (lap_step compound (stop_laps_for n) 22)
            (enumerate (LinearRegression.predict m (arange 1 58))) 0
  == adjusted_race_seconds m compound n.
Proof.
  rewrite fold_lap_step.
  unfold enumerate, LinearRegression.predict, arange, adjusted_race_seconds, race_laps.
  rewrite !length_map, length_seq, map_map.
  change (58 - 1)%nat with 57%nat.
  rewrite (enumerate_map_seq
             (fun n => inject_Z (Z.of_nat n) * LinearRegression.coef_ m
                       + LinearRegression.intercept_ m) 57 0).
  rewrite <- (seq_shift 57 0), !map_map.
  rewrite Qplus_0_l.
  apply Qsum_map_ext. intros j _. apply lap_step_adjusted.
Qed.

(** The compound shifts the whole race by 57 times its per-lap adjustment. *)
Lemma adjusted_race_seconds_compound (m : LinearRegression.t) (compound : string) (n : Z) :
  adjusted_race_seconds m compound n
  == adjusted_race_seconds m "MEDIUM" n + 57 * compound_adjustment compound.
Proof.
  unfold adjusted_race_seconds.
  transitivity
    (Qsum (map (fun lap => (fitted_pace m lap + compound_adjustment "MEDIUM"
                            + pit_loss n lap) + compound_adjustment compound)
               race_laps)).
  - apply Qsum_map_ext. intros lap _.
    change (compound_adjustment "MEDIUM") with 0. ring.
  - rewrite (Qsum_map_shift
               (fun lap => fitted_pace m lap + compound_adjustment "MEDIUM"
                           + pit_loss n lap)).
    reflexivity.
Qed.

(* ------------------------------------------------------------------ *)
(** ** The strategy estimator *)

Section Estimator.

Context {collaborators : Collaborators}.

Lemma py_int_raises_ValueError (v : int_or_str) (e : exn) :
  py_int v = Raise e -> exn_cls e = ValueError /\ exn_str e <> "".
Proof.
  destruct v as [n | s]; simpl; [discriminate |].
  destruct (int_of_str s); [discriminate |].
  intros H. injection H as <-. simpl. split; [reflexivity | discriminate].
Qed.

Lemma fit_nonempty (X y : list Q) :
  X <> [] -> exists m, LinearRegression.fit X y = Ret m.
Proof.
  destruct X as [| x X]; [congruence |]. intros _. simpl. eexists. reflexivity.
Qed.

(** What the estimator does once the session is there and the regression
    and the coercion of [stops] went through. *)
Lemma predict_strategy_success (track compound : string) (stops : int_or_str)
      (session : Session) (m : LinearRegression.t) (n : Z) :
  get_session_safe (IntArg 2023) track "R" = Ret (Some session) ->
  fitted_line session = Ret m ->
  py_int stops = Ret n ->
  predict_strategy track compound stops
  = Ret (Some (mk_estimate
                 (py_round (fold_left (lap_step compound (stop_laps_for n) 22)
                                      (enumerate (LinearRegression.predict m (arange 1 58)))
                                      0 / 60) 2)
                 (py_round (LinearRegression.coef_ m) 4)
                 (stop_string n (stop_laps_for n))),
         None).
Proof.
  intros Hs Hm Hn. unfold predict_strategy, fitted_line in *.
  rewrite Hs. cbn [bind]. rewrite Hm. cbn [bind]. rewrite Hn. reflexivity.
Qed.

(** A returned estimate comes from a session, a fitted line and a stop
    count, and its fields are those computed by lines 149-181. *)
Lemma predict_strategy_inv (track compound : string) (stops : int_or_str)
      (est : StrategyEstimate) (err : option string) :
  predict_strategy track compound stops = Ret (Some est, err) ->
  exists session m n,
    get_session_safe (IntArg 2023) track "R" = Ret (Some session) /\
    fitted_line session = Ret m /\
    py_int stops = Ret n /\
    total_time_min est
    = py_round (fold_left (lap_step compound (stop_laps_for n) 22)
                          (enumerate (LinearRegression.predict m (arange 1 58)))
                          0 / 60) 2 /\
    degradation est = py_round (LinearRegression.coef_ m) 4 /\
    stop_recommendation est = stop_string n (stop_laps_for n).
Proof.
  unfold predict_strategy, fitted_line.
  destruct (get_session_safe (IntArg 2023) track "R") as [[session |] | e] eqn:Hs;
    cbn [bind]; try discriminate.
  destruct (LinearRegression.fit _ _) as [m | e] eqn:Hm; cbn [bind try_except].
  - destruct (py_int stops) as [n | e] eqn:Hn; cbn [bind try_except].
    + intros H. exists session, m, n.
      assert (E : Some est
                  = Some (mk_estimate
                            (py_round (fold_left (lap_step compound (stop_laps_for n) 22)
                                         (enumerate (LinearRegression.predict m (arange 1 58)))
                                         0 / 60) 2)
                            (py_round (LinearRegression.coef_ m) 4)
                            (stop_string n (stop_laps_for n))))
        by (symmetry; exact (f_equal (fun r => match r with
                                               | Ret (x, _) => x
                                               | Raise _ => None
                                               end) H)).
      assert (E' : est = mk_estimate
                            (py_round (fold_left (lap_step compound (stop_laps_for n) 22)
                                         (enumerate (LinearRegression.predict m (arange 1 58)))
                                         0 / 60) 2)
                            (py_round (LinearRegression.coef_ m) 4)
                            (stop_string n (stop_laps_for n)))
        by (exact (f_equal (fun o => match o with
                                     | Some x => x
                                     | None => est
                                     end) E)).
      rewrite E'. repeat split; (reflexivity || assumption).
    + destruct (caught (exn_cls e)); discriminate.
  - destruct (caught (exn_cls e)); discriminate.
Qed.

(** An exception of a handled class inside the [try] becomes the error
    string of the result. *)
Lemma predict_strategy_fit_error (track compound : string) (stops : int_or_str)
      (session : Session) (e : exn) :
  get_session_safe (IntArg 2023) track "R" = Ret (Some session) ->
  fitted_line session = Raise e ->
  caught (exn_cls e) = true ->
  predict_strategy track compound stops = Ret (None, Some (exn_str e)).
Proof.
  intros Hs Hm Hc. unfold predict_strategy, fitted_line in *.
  rewrite Hs. cbn [bind]. rewrite Hm. cbn [bind try_except]. now rewrite Hc.
Qed.

Lemma fitted_line_empty (session : Session) :
  training_laps session = [] -> fitted_line session = Raise LinearRegression.no_samples.
Proof. unfold fitted_line. intros ->. reflexivity. Qed.

Lemma fitted_line_nonempty (session : Session) :
  training_laps session <> [] -> exists m, fitted_line session = Ret m.
Proof.
  intros H. apply fit_nonempty.
  destruct (training_laps session); [congruence | discriminate].
Qed.



(** C2 (amended): on a returned estimate the stop recommendation is
    "No Stops" for a stop count of 0, "Lap 25" for 1 and "Lap 18, Lap 38"
    for 2. *)
Theorem stop_recommendation_zero_one_two
        (track compound : string) (stops : int_or_str)
        (est : StrategyEstimate) (err : option string) (stop_count : Z) :
  predict_strategy track compound stops = Ret (Some est, err) ->
  py_int stops = Ret stop_count ->
  (stop_count = 0%Z -> stop_recommendation est = "No Stops") /\
  (stop_count = 1%Z -> stop_recommendation est = "Lap 25") /\
  (stop_count = 2%Z -> stop_recommendation est = "Lap 18, Lap 38").
Proof.
  intros H Hc.
  destruct (predict_strategy_inv _ _ _ _ _ H)
    as (session & m & n & _ & _ & Hn & _ & _ & Hr).
  rewrite Hc in Hn. injection Hn as <-. rewrite Hr.
  repeat split; intros ->; reflexivity.
Qed.

(** C3: for one circuit and stop count, SOFT gives a strictly smaller
    [total_time_min] than MEDIUM, and MEDIUM a strictly smaller one than
    HARD, when the three calls return an estimate. *)
Theorem compound_order
        (track : string) (stops : int_or_str)
        (soft medium hard : StrategyEstimate) (e1 e2 e3 : option string) :
  predict_strategy track "SOFT" stops = Ret (Some soft, e1) ->
  predict_strategy track "MEDIUM" stops = Ret (Some medium, e2) ->
  predict_strategy track "HARD" stops = Ret (Some hard, e3) ->
  total_time_min soft < total_time_min medium /\
  total_time_min medium < total_time_min hard.
Proof.
  intros H1 H2 H3.
  destruct (predict_strategy_inv _ _ _ _ _ H1)
    as (session & m & n & Hs & Hm & Hn & T1 & _ & _).
  destruct (predict_strategy_inv _ _ _ _ _ H2)
    as (session2 & m2 & n2 & Hs2 & Hm2 & Hn2 & T2 & _ & _).
  destruct (predict_strategy_inv _ _ _ _ _ H3)
    as (session3 & m3 & n3 & Hs3 & Hm3 & Hn3 & T3 & _ & _).
  rewrite Hs in Hs2, Hs3. injection Hs2 as <-. injection Hs3 as <-.
  rewrite Hm in Hm2, Hm3. injection Hm2 as <-. injection Hm3 as <-.
  rewrite Hn in Hn2, Hn3. injection Hn2 as <-. injection Hn3 as <-.
  rewrite T1, T2, T3.
  pose proof (race_time_total_sum m "SOFT" n) as S1.
  pose proof (race_time_total_sum m "MEDIUM" n) as S2.
  pose proof (race_time_total_sum m "HARD" n) as S3.
  rewrite (adjusted_race_seconds_compound m "SOFT") in S1.
  rewrite (adjusted_race_seconds_compound m "HARD") in S3.
  change (compound_adjustment "SOFT") with (- (1 # 2)) in S1.
  change (compound_adjustment "HARD") with (1 # 2) in S3.
  rewrite <- S2 in S1, S3.
  split; apply py_round_2_lt.
  - rewrite S1, !Qdiv_60. lra.
  - rewrite S3, !Qdiv_60. lra.
Qed.

(** C4 (amended): when the session resolves, the training set has at least
    2 laps and [stops] coerces to a count >= 0, an estimate is returned and
    no error; its [total_time_min] is > 0 exactly when the 57 adjusted lap
    times sum to more than 0.3 s. *)
Theorem estimate_returned_and_sign
        (track compound : string) (stops : int_or_str)
        (session : Session) (stop_count : Z) :
  get_session_safe (IntArg 2023) track "R" = Ret (Some session) ->
  (2 <= List.length (training_laps session))%nat ->
  py_int stops = Ret stop_count ->
  (0 <= stop_count)%Z ->
  exists est model,
    predict_strategy track compound stops = Ret (Some est, None) /\
    fitted_line session = Ret model /\
    (0 < total_time_min est
     <-> 3 # 10 < adjusted_race_seconds model compound stop_count).
Proof.
  intros Hs Hlen Hn _.
  destruct (fitted_line_nonempty session) as [m Hm].
  { intros E. rewrite E in Hlen. simpl in Hlen. lia. }
  eexists. exists m.
  split; [apply (predict_strategy_success _ _ _ _ _ _ Hs Hm Hn) |].
  split; [exact Hm |].
  change (total_time_min (mk_estimate ?a ?b ?c)) with a.
  rewrite py_round_2_pos_iff.
  pose proof (race_time_total_sum m compound stop_count) as S.
  rewrite S, Qdiv_60. split; intros; lra.
Qed.

(** C5 (amended): when the session does not resolve, no estimate is
    returned and the error string is the fixed text "Historical data
    unavailable for this track.". *)
Theorem unresolved_session_message
        (track compound : string) (stops : int_or_str) :
  get_session_safe (IntArg 2023) track "R" = Ret None ->
  predict_strategy track compound stops
  = Ret (None, Some "Historical data unavailable for this track.").
Proof.
  intros H. unfold predict_strategy. rewrite H. reflexivity.
Qed.

(** C6: when the session resolves and no representative lap has both a lap
    number and a lap time, the estimator does not raise: it returns no
    estimate and a non-empty error string, the message of the regression's
    input validation. *)
Theorem empty_training_set_reported
        (track compound : string) (stops : int_or_str) (session : Session) :
  get_session_safe (IntArg 2023) track "R" = Ret (Some session) ->
  training_laps session = [] ->
  exists msg,
    predict_strategy track compound stops = Ret (None, Some msg) /\
    msg = exn_str LinearRegression.no_samples /\
    msg <> "".
Proof.
  intros Hs He. eexists. split; [| split; [reflexivity | discriminate]].
  apply (predict_strategy_fit_error _ _ _ session); auto using fitted_line_empty.
Qed.


End Estimator.

(* ------------------------------------------------------------------ *)
(** ** The telemetry comparator *)

Lemma mask_rows_filter {A B : Type} (g : A -> B) (f : B -> bool) (rows : list A) :
  mask_rows rows (map f (map g rows)) = filter (fun r => f (g r)) rows.
Proof.
  induction rows as [| r rows IH]; simpl.
  - reflexivity.
  - rewrite IH. reflexivity.
Qed.

Lemma find_head_filter {A : Type} (p : A -> bool) (l : list A) :
  find p l = hd_error (filter p l).
Proof.
  induction l as [| a l IH]; simpl.
  - reflexivity.
  - destruct (p a); [reflexivity | exact IH].
Qed.

Lemma find_pointwise {A : Type} (p q : A -> bool) (l : list A) :
  (forall a, p a = q a) -> find p l = find q l.
Proof.
  intros E. induction l as [| a l IH]; simpl.
  - reflexivity.
  - rewrite E, IH. reflexivity.
Qed.

Lemma find_never {A : Type} (l : list A) : find (fun _ => false) l = None.
Proof. induction l; simpl; auto. Qed.

Lemma index_of_columns (name : string) (cols : list string) (i : nat) :
  index_of name cols = Some i -> cols <> [].
Proof. destruct cols; simpl; [discriminate | discriminate]. Qed.

Section Comparator.

Context {collaborators : Collaborators}.

(** The winner block never raises, and yields the winner as described. *)
Lemma resolve_winner_described (session : Session) :
  resolve_winner session = Ret (described_winner py_str (results session)).
Proof.
  unfold resolve_winner, described_winner, df_col.
  destruct (results session) as [cols rows]. cbn [df_columns df_rows].
  destruct (index_of "Position" cols) as [i |] eqn:Hi.
  - cbn [bind].
    rewrite (find_pointwise (finished_first cols)
                            (fun r => pyval_eq_num (nth i r PNull) 1)).
    2:{ intros r. unfold finished_first, cell. rewrite Hi. reflexivity. }
    rewrite find_head_filter.
    unfold df_loc, df_empty, df_iloc. cbn [df_columns df_rows].
    rewrite (mask_rows_filter (fun row => nth i row PNull)
                              (fun v => pyval_eq_num v 1)).
    destruct cols as [| c cols]; [discriminate |].
    destruct (filter _ rows) as [| row rest]; [reflexivity |].
    cbn [hd_error nth_error bind]. unfold series_get, cell.
    cbn [s_index s_values].
    destruct (index_of "Abbreviation" (c :: cols)); [| reflexivity].
    cbn [bind option_map].
    destruct (index_of "TeamName" (c :: cols)); [| reflexivity].
    cbn [bind option_map].
    destruct (index_of "Time" (c :: cols)); reflexivity.
  - cbn [bind try_except key_error exn_cls caught].
    rewrite (find_pointwise (finished_first cols) (fun _ => false)).
    2:{ intros r. unfold finished_first, cell. rewrite Hi. reflexivity. }
    rewrite find_never. reflexivity.
Qed.

(** [extract_tel] gives [None] when reading the telemetry raises one of the
    handled classes. *)
Lemma extract_tel_handled (l : Lap) (driver_code : string) (e : exn) :
  get_telemetry l = Raise e ->
  caught (exn_cls e) = true ->
  extract_tel (Some l) driver_code = Ret None.
Proof.
  intros H Hc. unfold extract_tel. rewrite H. cbn [bind try_except].
  now rewrite Hc.
Qed.

(** The comparator once the session is there, both drivers have laps and
    [extract_tel] returned for both. *)
Lemma get_detailed_telemetry_success
      (year : int_or_str) (race d1 d2 : string) (session : Session)
      (t1 t2 : option SpeedTrace) :
  get_session_safe year race "R" = Ret (Some session) ->
  representative_laps session d1 <> [] ->
  representative_laps session d2 <> [] ->
  extract_tel (pick_fastest (representative_laps session d1)) d1 = Ret t1 ->
  extract_tel (pick_fastest (representative_laps session d2)) d2 = Ret t2 ->
  get_detailed_telemetry year race d1 d2
  = Ret (Some (mk_comparison
                 (EventName session)
                 [pace_series (d1, representative_laps session d1);
                  pace_series (d2, representative_laps session d2)]
                 ((match t1 with Some t => [t] | None => [] end)
                  ++ (match t2 with Some t => [t] | None => [] end))%list
                 (described_winner py_str (results session))),
         None).
Proof.
  unfold representative_laps. intros Hs H1 H2 E1 E2.
  unfold get_detailed_telemetry. rewrite Hs. cbn [bind].
  destruct (pick_quicklaps (pick_driver (laps session) d1)) as [| a1 l1] eqn:L1;
    [congruence |].
  destruct (pick_quicklaps (pick_driver (laps session) d2)) as [| a2 l2] eqn:L2;
    [congruence |].
  cbn [is_empty orb]. rewrite E1, E2. cbn [bind].
  rewrite resolve_winner_described. cbn [bind try_except map].
  destruct t1, t2; reflexivity.
Qed.

(** A returned comparison comes from a session in which both drivers have
    representative laps and [extract_tel] returned for both. *)
Lemma get_detailed_telemetry_inv
      (year : int_or_str) (race d1 d2 : string)
      (r : TelemetryComparison) (err : option string) :
  get_detailed_telemetry year race d1 d2 = Ret (Some r, err) ->
  exists session t1 t2,
    get_session_safe year race "R" = Ret (Some session) /\
    representative_laps session d1 <> [] /\
    representative_laps session d2 <> [] /\
    extract_tel (pick_fastest (representative_laps session d1)) d1 = Ret t1 /\
    extract_tel (pick_fastest (representative_laps session d2)) d2 = Ret t2.
Proof.
  unfold get_detailed_telemetry, representative_laps.
  destruct (get_session_safe year race "R") as [[session |] | e] eqn:Hs;
    cbn [bind]; try discriminate.
  destruct (pick_quicklaps (pick_driver (laps session) d1)) as [| a1 l1] eqn:L1;
    [discriminate |].
  destruct (pick_quicklaps (pick_driver (laps session) d2)) as [| a2 l2] eqn:L2;
    [discriminate |].
  cbn [is_empty orb].
  destruct (extract_tel (pick_fastest (a1 :: l1)) d1) as [t1 | e] eqn:E1;
    cbn [bind try_except].
  - destruct (extract_tel (pick_fastest (a2 :: l2)) d2) as [t2 | e] eqn:E2;
      cbn [bind try_except].
    + intros _. exists session, t1, t2.
      repeat split; rewrite ?L1, ?L2;
        (reflexivity || assumption || discriminate).
    + destruct (caught (exn_cls e)); discriminate.
  - destruct (caught (exn_cls e)); discriminate.
Qed.

(** C7: in a session that resolves, if either driver has no representative
    lap the comparator returns no result and the error string "Driver data
    unavailable."; nothing is returned for the other driver. *)
Theorem driver_without_laps_reported
        (year : int_or_str) (race d1 d2 : string) (session : Session) :
  get_session_safe year race "R" = Ret (Some session) ->
  representative_laps session d1 = [] \/ representative_laps session d2 = [] ->
  get_detailed_telemetry year race d1 d2
  = Ret (None, Some "Driver data unavailable.").
Proof.
  unfold representative_laps. intros Hs H.
  unfold get_detailed_telemetry. rewrite Hs. cbn [bind].
  destruct H as [-> | ->].
  - reflexivity.
  - rewrite orb_true_r. reflexivity.
Qed.



End Comparator.

(* ------------------------------------------------------------------ *)
(** ** The properties on the fixture *)

Section OnFixture.

#[local] Existing Instance Fixture.collaborators.


Lemma stop_recommendation_zero_one_two_witness :
  predict_strategy "Bahrain" "MEDIUM" (StrArg "2")
  = Ret (Some (mk_estimate (1893 # 20) (231 # 5000) "Lap 18, Lap 38"), None) /\
  py_int (StrArg "2") = Ret 2%Z /\
  stop_recommendation (mk_estimate (1893 # 20) (231 # 5000) "Lap 18, Lap 38")
  = "Lap 18, Lap 38".
Proof.
  assert (H : predict_strategy "Bahrain" "MEDIUM" (StrArg "2")
              = Ret (Some (mk_estimate (1893 # 20) (231 # 5000) "Lap 18, Lap 38"),
                     None)) by (vm_compute; reflexivity).
  assert (C : py_int (StrArg "2") = Ret 2%Z) by (vm_compute; reflexivity).
  split; [exact H | split; [exact C |]].
  destruct (stop_recommendation_zero_one_two _ _ _ _ _ _ H C) as (_ & _ & H2).
  exact (H2 eq_refl).
Defined.

(** With three stops the estimate is returned, the pit-stop table has no
    entry, and the recommendation is the empty string. *)
Lemma three_stops_empty_recommendation :
  exists est,
    predict_strategy "Bahrain" "HARD" (StrArg "3") = Ret (Some est, None) /\
    py_int (StrArg "3") = Ret 3%Z /\
    (0 <= 3)%Z /\
    pit_stop_table 3 = [] /\
    stop_recommendation est = "" /\
    stop_recommendation est <> "No Stops".
Proof.
  eexists. split; [vm_compute; reflexivity |].
  repeat split; try reflexivity; try discriminate.
Qed.

Lemma compound_order_witness :
  predict_strategy "Bahrain" "SOFT" (IntArg 1)
  = Ret (Some (mk_estimate (9381 # 100) (231 # 5000) "Lap 25"), None) /\
  predict_strategy "Bahrain" "MEDIUM" (IntArg 1)
  = Ret (Some (mk_estimate (9429 # 100) (231 # 5000) "Lap 25"), None) /\
  predict_strategy "Bahrain" "HARD" (IntArg 1)
  = Ret (Some (mk_estimate (2369 # 25) (231 # 5000) "Lap 25"), None) /\
  9381 # 100 < 9429 # 100 /\ 9429 # 100 < 2369 # 25.
Proof.
  assert (H1 : predict_strategy "Bahrain" "SOFT" (IntArg 1)
               = Ret (Some (mk_estimate (9381 # 100) (231 # 5000) "Lap 25"), None))
    by (vm_compute; reflexivity).
  assert (H2 : predict_strategy "Bahrain" "MEDIUM" (IntArg 1)
               = Ret (Some (mk_estimate (9429 # 100) (231 # 5000) "Lap 25"), None))
    by (vm_compute; reflexivity).
  assert (H3 : predict_strategy "Bahrain" "HARD" (IntArg 1)
               = Ret (Some (mk_estimate (2369 # 25) (231 # 5000) "Lap 25"), None))
    by (vm_compute; reflexivity).
  split; [exact H1 | split; [exact H2 | split; [exact H3 |]]].
  exact (compound_order _ _ _ _ _ _ _ _ H1 H2 H3).
Defined.

(** Two representative laps, numbers 60 and 61 at 100 s and 106 s: the
    fitted line is 6 s per lap from -260 s, the 57 laps sum to -4902 s. *)
Lemma steep_trend_negative_total :
  get_session_safe (IntArg 2023) "Monaco" "R" = Ret (Some Fixture.monaco) /\
  List.length (training_laps Fixture.monaco) = 2%nat /\
  py_int (IntArg 0) = Ret 0%Z /\
  predict_strategy "Monaco" "MEDIUM" (IntArg 0)
  = Ret (Some (mk_estimate (-817 # 10) 6 "No Stops"), None) /\
  ~ 0 < -817 # 10.
Proof.
  repeat split; try (vm_compute; reflexivity).
  intros H. vm_compute in H. discriminate.
Qed.

Lemma estimate_returned_and_sign_witness :
  get_session_safe (IntArg 2023) "Bahrain" "R" = Ret (Some Fixture.bahrain) /\
  (2 <= List.length (training_laps Fixture.bahrain))%nat /\
  py_int (StrArg "0") = Ret 0%Z /\
  exists est model,
    predict_strategy "Bahrain" "HARD" (StrArg "0") = Ret (Some est, None) /\
    fitted_line Fixture.bahrain = Ret model /\
    (0 < total_time_min est <-> 3 # 10 < adjusted_race_seconds model "HARD" 0).
Proof.
  assert (Hs : get_session_safe (IntArg 2023) "Bahrain" "R" = Ret (Some Fixture.bahrain))
    by (vm_compute; reflexivity).
  assert (Hl : (2 <= List.length (training_laps Fixture.bahrain))%nat)
    by (vm_compute; lia).
  assert (Hn : py_int (StrArg "0") = Ret 0%Z) by (vm_compute; reflexivity).
  split; [exact Hs | split; [exact Hl | split; [exact Hn |]]].
  apply (estimate_returned_and_sign "Bahrain" "HARD" (StrArg "0")
                                    Fixture.bahrain 0 Hs Hl Hn).
  lia.
Defined.

(** An unresolvable circuit: the error string does not contain its name. *)
Lemma unresolved_message_omits_circuit :
  get_session_safe (IntArg 2023) "Imola" "R" = Ret None /\
  exists msg,
    predict_strategy "Imola" "SOFT" (IntArg 1) = Ret (None, Some msg) /\
    contains "Imola" msg = false.
Proof.
  split; [vm_compute; reflexivity |].
  eexists. split; vm_compute; reflexivity.
Qed.

Lemma unresolved_session_message_witness :
  get_session_safe (IntArg 2023) "Imola" "R" = Ret None /\
  predict_strategy "Imola" "SOFT" (IntArg 1)
  = Ret (None, Some "Historical data unavailable for this track.").
Proof.
  assert (H : get_session_safe (IntArg 2023) "Imola" "R" = Ret None)
    by (vm_compute; reflexivity).
  split; [exact H |].
  exact (unresolved_session_message "Imola" "SOFT" (IntArg 1) H).
Defined.

Lemma empty_training_set_reported_witness :
  get_session_safe (IntArg 2023) "Spain" "R" = Ret (Some Fixture.spain) /\
  training_laps Fixture.spain = [] /\
  exists msg,
    predict_strategy "Spain" "MEDIUM" (IntArg 1) = Ret (None, Some msg) /\
    msg = exn_str LinearRegression.no_samples /\
    msg <> "".
Proof.
  assert (Hs : get_session_safe (IntArg 2023) "Spain" "R" = Ret (Some Fixture.spain))
    by (vm_compute; reflexivity).
  assert (He : training_laps Fixture.spain = []) by (vm_compute; reflexivity).
  split; [exact Hs | split; [exact He |]].
  exact (empty_training_set_reported "Spain" "MEDIUM" (IntArg 1) Fixture.spain Hs He).
Defined.


Lemma driver_without_laps_reported_witness :
  get_session_safe (StrArg "2023") "Bahrain" "R" = Ret (Some Fixture.bahrain) /\
  representative_laps Fixture.bahrain "HAM" = [] /\
  get_detailed_telemetry (StrArg "2023") "Bahrain" "VER" "HAM"
  = Ret (None, Some "Driver data unavailable.").
Proof.
  assert (Hs : get_session_safe (StrArg "2023") "Bahrain" "R"
               = Ret (Some Fixture.bahrain)) by (vm_compute; reflexivity).
  assert (He : representative_laps Fixture.bahrain "HAM" = [])
    by (vm_compute; reflexivity).
  split; [exact Hs | split; [exact He |]].
  exact (driver_without_laps_reported (StrArg "2023") "Bahrain" "VER" "HAM"
                                      Fixture.bahrain Hs (or_intror He)).
Defined.



End OnFixture.

(* ------------------------------------------------------------------ *)
(** ** Worked values *)

Example rint_half_to_even :
  (rint (5 # 2), rint (7 # 2), rint (- 5 # 2), rint (47 # 10)) = (2, 4, -2, 5)%Z.
Proof. reflexivity. Qed.

Example py_split_days :
  py_split " days " "0 days 01:33:56.736000" = ["0"; "01:33:56.736000"].
Proof. reflexivity. Qed.

Example after_days_without_prefix : after_days "NaT" = "NaT".
Proof. reflexivity. Qed.

Example lap_time_ten_characters :
  substring 0 10 (after_days (Fixture.py_str (PTimedelta (Fixture.ms 97234))))
  = "00:01:37.2".
Proof. reflexivity. Qed.

(** The example of the design document: slope 0.05 s/lap, intercept 80 s,
    SOFT, one stop. *)
Example slope_intercept_example :
  let m := LinearRegression.mk (5 # 100) 80 in
  py_round (fold_left (lap_step "SOFT" (stop_laps_for 1) 22)
                      (enumerate (LinearRegression.predict m (arange 1 58))) 0
            / 60) 2 = 7727 # 100 /\
  py_round (LinearRegression.coef_ m) 4 = 1 # 20 /\
  stop_string 1 (stop_laps_for 1) = "Lap 25".
Proof. vm_compute. repeat split; reflexivity. Qed.

(** An exception class outside the [except] clause leaves [extract_tel]. *)
Lemma extract_tel_unhandled {collaborators : Collaborators}
      (l : Lap) (driver_code : string) (e : exn) :
  get_telemetry l = Raise e ->
  caught (exn_cls e) = false ->
  extract_tel (Some l) driver_code = Raise e.
Proof.
  intros H Hc. unfold extract_tel. rewrite H. cbn [bind try_except].
  now rewrite Hc.
Qed.

(* ------------------------------------------------------------------ *)
(** ** Session loading and the circuit layout *)

Lemma df_col_length (df : DataFrame) (name : string) (l : list pyval) :
  df_col df name = Ret l -> List.length l = List.length (df_rows df).
Proof.
  unfold df_col. destruct (index_of name (df_columns df)); [| discriminate].
  intros H. injection H as <-. apply length_map.
Qed.

Lemma df_col_missing (df : DataFrame) (name : string) (e : exn) :
  df_col df name = Raise e ->
  index_of name (df_columns df) = None /\ e = key_error name.
Proof.
  unfold df_col. destruct (index_of name (df_columns df)); [discriminate |].
  intros H. injection H as <-. split; reflexivity.
Qed.

Section SessionLoading.

Context {collaborators : Collaborators}.


(** The body of the [try] of [get_circuit_layout]. *)
Lemma get_circuit_layout_resolved (track : string) (session : Session) :
  get_session_safe (IntArg 2023) track "Q" = Ret (Some session) ->
  get_circuit_layout track
  = try_except
      (match pick_fastest (laps session) with
       | None =>
           Raise (mk_exn AttributeError
                    "'NoneType' object has no attribute 'get_telemetry'")
       | Some lap =>
           telemetry <- get_telemetry lap ;;
           x <- df_col telemetry "X" ;;
           y <- df_col telemetry "Y" ;;
           Ret (Some (mk_layout x y (EventName session)))
       end)
      (fun _ => Ret None).
Proof. intros H. unfold get_circuit_layout. rewrite H. reflexivity. Qed.

(** X2: a returned layout comes from the telemetry of the fastest lap of
    the 2023 qualifying session: [x] and [y] are its columns [X] and [Y],
    both as long as the telemetry has samples, and [name] is the event
    name. *)
Theorem circuit_layout_shape (track : string) (layout : CircuitLayout) :
  get_circuit_layout track = Ret (Some layout) ->
  exists session lap telemetry,
    get_session_safe (IntArg 2023) track "Q" = Ret (Some session) /\
    pick_fastest (laps session) = Some lap /\
    get_telemetry lap = Ret telemetry /\
    df_col telemetry "X" = Ret (layout_x layout) /\
    df_col telemetry "Y" = Ret (layout_y layout) /\
    layout_name layout = EventName session /\
    List.length (layout_x layout) = List.length (df_rows telemetry) /\
    List.length (layout_y layout) = List.length (layout_x layout).
Proof.
  unfold get_circuit_layout.
  destruct (get_session_safe (IntArg 2023) track "Q") as [[session |] | e] eqn:Hs;
    cbn [bind]; try discriminate.
  destruct (pick_fastest (laps session)) as [lap |] eqn:Hf;
    cbn [try_except exn_cls caught]; [| discriminate].
  destruct (get_telemetry lap) as [tel | e] eqn:Ht; cbn [bind try_except].
  2:{ destruct (caught (exn_cls e)); discriminate. }
  destruct (df_col tel "X") as [x | e] eqn:Hx; cbn [bind try_except].
  2:{ destruct (caught (exn_cls e)); discriminate. }
  destruct (df_col tel "Y") as [y | e] eqn:Hy; cbn [bind try_except].
  2:{ destruct (caught (exn_cls e)); discriminate. }
  intros H. injection H as <-. exists session, lap, tel. cbn.
  repeat split; try assumption.
  - eapply df_col_length; eassumption.
  - rewrite (df_col_length _ _ _ Hx), (df_col_length _ _ _ Hy). reflexivity.
Qed.

(** X3: [get_circuit_layout] returns [None] exactly when the qualifying
    session does not resolve, or reading the fastest lap's telemetry raises a
    ValueError, IndexError or KeyError, or the telemetry lacks the column [X]
    or [Y]. *)
Theorem circuit_layout_none (track : string) :
  get_circuit_layout track = Ret None
  <-> get_session_safe (IntArg 2023) track "Q" = Ret None \/
      exists session lap,
        get_session_safe (IntArg 2023) track "Q" = Ret (Some session) /\
        pick_fastest (laps session) = Some lap /\
        ((exists e, get_telemetry lap = Raise e /\ caught (exn_cls e) = true) \/
         (exists telemetry,
             get_telemetry lap = Ret telemetry /\
             (index_of "X" (df_columns telemetry) = None \/
              index_of "Y" (df_columns telemetry) = None))).
Proof.
  unfold get_circuit_layout.
  destruct (get_session_safe (IntArg 2023) track "Q") as [[session |] | e] eqn:Hs;
    cbn [bind].
  - destruct (pick_fastest (laps session)) as [lap |] eqn:Hf;
      cbn [try_except exn_cls caught].
    + destruct (get_telemetry lap) as [tel | e] eqn:Ht; cbn [bind try_except].
      * unfold df_col.
        destruct (index_of "X" (df_columns tel)) eqn:Hx;
          cbn [bind try_except key_error exn_cls caught].
        -- destruct (index_of "Y" (df_columns tel)) eqn:Hy;
             cbn [bind try_except key_error exn_cls caught].
           ++ split; [discriminate |].
              intros [H | (s & l & H1 & H2 & H3)]; [discriminate |].
              injection H1 as <-. rewrite Hf in H2. injection H2 as <-.
              destruct H3 as [(e & He & _) | (t & Ht' & Hxy)].
              ** rewrite Ht in He. discriminate.
              ** rewrite Ht in Ht'. injection Ht' as <-.
                 destruct Hxy; congruence.
           ++ split; [intros _ | reflexivity].
              right. exists session, lap. repeat split; try assumption.
              right. exists tel. split; [exact Ht | now right].
        -- split; [intros _ | reflexivity].
           right. exists session, lap. repeat split; try assumption.
           right. exists tel. split; [exact Ht | now left].
      * destruct (caught (exn_cls e)) eqn:Hc.
        -- split; [intros _ | reflexivity].
           right. exists session, lap. repeat split; try assumption.
           left. exists e. split; [exact Ht | exact Hc].
        -- split; [discriminate |].
           intros [H | (s & l & H1 & H2 & H3)]; [discriminate |].
           injection H1 as <-. rewrite Hf in H2. injection H2 as <-.
           destruct H3 as [(e' & He & Hc') | (t & Ht' & _)].
           ++ rewrite Ht in He. injection He as <-. congruence.
           ++ rewrite Ht in Ht'. discriminate.
    + split; [discriminate |].
      intros [H | (s & l & H1 & H2 & _)]; [discriminate |].
      injection H1 as <-. rewrite Hf in H2. discriminate.
  - split; [intros _; now left | reflexivity].
  - split; [discriminate |].
    intros [H | (s & l & H1 & _)]; discriminate.
Qed.

(** X4: [get_circuit_layout] raises exactly in three cases: loading the
    session raises an exception of an unhandled class; the session has no
    fastest lap, and the call of [get_telemetry] on [None] is an
    AttributeError; reading the telemetry raises an exception of an
    unhandled class. *)
Theorem circuit_layout_raises (track : string) (e : exn) :
  get_circuit_layout track = Raise e
  <-> get_session_safe (IntArg 2023) track "Q" = Raise e \/
      exists session,
        get_session_safe (IntArg 2023) track "Q" = Ret (Some session) /\
        ((pick_fastest (laps session) = None /\
          e = mk_exn AttributeError
                     "'NoneType' object has no attribute 'get_telemetry'") \/
         (exists lap,
             pick_fastest (laps session) = Some lap /\
             get_telemetry lap = Raise e /\
             caught (exn_cls e) = false)).
Proof.
  unfold get_circuit_layout.
  destruct (get_session_safe (IntArg 2023) track "Q") as [[session |] | e0] eqn:Hs;
    cbn [bind].
  - destruct (pick_fastest (laps session)) as [lap |] eqn:Hf;
      cbn [try_except exn_cls caught].
    + destruct (get_telemetry lap) as [tel | e1] eqn:Ht; cbn [bind try_except].
      * assert (N : forall o : outcome (option CircuitLayout),
                   o = try_except
                         (x <- df_col tel "X" ;;
                          y <- df_col tel "Y" ;;
                          Ret (Some (mk_layout x y (EventName session))))
                         (fun _ => Ret None) ->
                   o <> Raise e).
        { intros o ->. unfold df_col.
          destruct (index_of "X" (df_columns tel)); cbn; [| discriminate].
          destruct (index_of "Y" (df_columns tel)); cbn; discriminate. }
        split.
        -- intros H. exfalso. exact (N _ eq_refl H).
        -- intros [H | (s & H1 & H2)]; [discriminate |].
           injection H1 as <-.
           destruct H2 as [[H2 _] | (l & H2 & H3 & _)]; [congruence |].
           rewrite Hf in H2. injection H2 as <-. rewrite Ht in H3. discriminate.
      * destruct (caught (exn_cls e1)) eqn:Hc.
        -- split; [discriminate |].
           intros [H | (s & H1 & H2)]; [discriminate |].
           injection H1 as <-.
           destruct H2 as [[H2 _] | (l & H2 & H3 & Hc')]; [congruence |].
           rewrite Hf in H2. injection H2 as <-. rewrite Ht in H3.
           injection H3 as <-. congruence.
        -- split.
           ++ intros H. injection H as <-. right. exists session.
              split; [reflexivity |]. right. exists lap.
              repeat split; assumption.
           ++ intros [H | (s & H1 & H2)]; [discriminate |].
              injection H1 as <-.
              destruct H2 as [[H2 _] | (l & H2 & H3 & _)]; [congruence |].
              rewrite Hf in H2. injection H2 as <-. rewrite Ht in H3.
              injection H3 as <-. reflexivity.
    + split.
      * intros H. injection H as <-. right. exists session.
        split; [reflexivity |]. left. split; [exact Hf | reflexivity].
      * intros [H | (s & H1 & H2)]; [discriminate |].
        injection H1 as <-.
        destruct H2 as [[_ ->] | (l & H2 & _)]; [reflexivity |].
        rewrite Hf in H2. discriminate.
  - split; [discriminate |].
    intros [H | (s & H1 & _)]; discriminate.
  - split.
    + intros H. injection H as <-. now left.
    + intros [H | (s & H1 & _)]; [| discriminate].
      injection H as <-. reflexivity.
Qed.

End SessionLoading.

(* ------------------------------------------------------------------ *)
(** ** Further properties of the estimator *)

Lemma ret_pair_inv {A B : Type} (a c : A) (b d : B) :
  @Ret (A * B) (a, b) = Ret (c, d) -> a = c /\ b = d.
Proof. intros H. injection H as -> ->. split; reflexivity. Qed.

Lemma fit_raises_no_samples (X y : list Q) (e : exn) :
  LinearRegression.fit X y = Raise e -> e = LinearRegression.no_samples.
Proof.
  destruct X as [| x X]; simpl; intros H; [| discriminate].
  injection H as <-. reflexivity.
Qed.

Lemma fold_left_pointwise {A B : Type} (f g : A -> B -> A) (l : list B) (a : A) :
  (forall a b, f a b = g a b) -> fold_left f l a = fold_left g l a.
Proof.
  intros E. revert a. induction l as [| b l IH]; intros a; simpl.
  - reflexivity.
  - rewrite E. apply IH.
Qed.

Lemma lap_step_neutral (compound : string) (stop_laps : list Z) (stop_penalty : Q)
      (acc : Q) (item : nat * Q) :
  compound <> "SOFT" -> compound <> "HARD" ->
  lap_step compound stop_laps stop_penalty acc item
  = lap_step "MEDIUM" stop_laps stop_penalty acc item.
Proof.
  intros NS NH. destruct item as [i time]. unfold lap_step.
  destruct (String.eqb_spec compound "SOFT"); [contradiction |].
  destruct (String.eqb_spec compound "HARD"); [contradiction |].
  reflexivity.
Qed.

Lemma stop_laps_for_other (n : Z) : n <> 1%Z -> n <> 2%Z -> stop_laps_for n = [].
Proof.
  intros N1 N2. unfold stop_laps_for.
  destruct (Z.eqb_spec n 1); [contradiction |].
  destruct (Z.eqb_spec n 2); [contradiction |]. reflexivity.
Qed.

Lemma Qsum_map_plus3 {A : Type} (f g : A -> Q) (d : Q) (l : list A) :
  Qsum (map (fun a => f a + d + g a) l)
  == Qsum (map f l) + inject_Z (Z.of_nat (List.length l)) * d + Qsum (map g l).
Proof.
  induction l as [| a l IH].
  - simpl. change (inject_Z 0) with 0. ring.
  - cbn [map Qsum fold_right List.length]. unfold Qsum in IH. rewrite IH.
    rewrite Nat2Z.inj_succ. unfold Z.succ. rewrite inject_Z_succ. ring.
Qed.

Lemma Qsum_line (a b : Q) (l : list Z) :
  Qsum (map (fun k => b + a * inject_Z k) l)
  == inject_Z (Z.of_nat (List.length l)) * b + a * inject_Z (fold_right Z.add 0%Z l).
Proof.
  induction l as [| k l IH].
  - simpl. change (inject_Z 0) with 0. ring.
  - cbn [map Qsum fold_right List.length]. unfold Qsum in IH. rewrite IH.
    rewrite Nat2Z.inj_succ. unfold Z.succ. rewrite inject_Z_succ, inject_Z_plus.
    ring.
Qed.

(** The pit loss summed over the race: 22 s for every lap of the table. *)
Lemma pit_loss_sum (n : Z) :
  Qsum (map (pit_loss n) race_laps)
  == 22 * inject_Z (Z.of_nat (List.length (stop_laps_for n))).
Proof.
  destruct (Z.eq_dec n 1) as [-> | N1]; [vm_compute; reflexivity |].
  destruct (Z.eq_dec n 2) as [-> | N2]; [vm_compute; reflexivity |].
  rewrite (stop_laps_for_other n N1 N2).
  transitivity (Qsum (map (fun _ : Z => 0) race_laps)).
  - apply Qsum_map_ext. intros lap _. unfold pit_loss.
    rewrite <- stop_laps_table, (stop_laps_for_other n N1 N2). reflexivity.
  - vm_compute. reflexivity.
Qed.

(** The sum of the 57 adjusted laps in closed form. *)
Lemma adjusted_race_seconds_closed (m : LinearRegression.t) (compound : string) (n : Z) :
  adjusted_race_seconds m compound n
  == 57 * LinearRegression.intercept_ m + 1653 * LinearRegression.coef_ m
     + 57 * compound_adjustment compound
     + 22 * inject_Z (Z.of_nat (List.length (stop_laps_for n))).
Proof.
  unfold adjusted_race_seconds.
  rewrite (Qsum_map_plus3 (fitted_pace m) (pit_loss n)).
  rewrite pit_loss_sum. unfold fitted_pace. rewrite Qsum_line.
  change (inject_Z (Z.of_nat (List.length race_laps))) with 57.
  change (inject_Z (fold_right Z.add 0%Z race_laps)) with 1653.
  ring.
Qed.

Section EstimatorMore.

Context {collaborators : Collaborators}.

(** The two shapes of what [predict_strategy] returns. *)
Lemma predict_strategy_result_or_error
        (track compound : string) (stops : int_or_str)
        (res : option StrategyEstimate) (err : option string) :
  predict_strategy track compound stops = Ret (res, err) ->
  (exists est, res = Some est /\ err = None) \/
  (res = None /\ exists msg, err = Some msg /\ msg <> "").
Proof.
  unfold predict_strategy.
  destruct (get_session_safe (IntArg 2023) track "R") as [[session |] | e];
    cbn [bind]; [| | discriminate].
  - destruct (LinearRegression.fit _ _) as [m | e] eqn:Hm; cbn [bind try_except].
    + destruct (py_int stops) as [n | e] eqn:Hn; cbn [bind try_except].
      * intros H. apply ret_pair_inv in H. destruct H as [<- <-].
        left. eexists. split; reflexivity.
      * destruct (py_int_raises_ValueError _ _ Hn) as [Hc Hne]. rewrite Hc.
        cbn [caught]. intros H. apply ret_pair_inv in H. destruct H as [<- <-].
        right. split; [reflexivity |]. eexists. split; [reflexivity | exact Hne].
    + rewrite (fit_raises_no_samples _ _ _ Hm). cbn [exn_cls caught].
      intros H. apply ret_pair_inv in H. destruct H as [<- <-].
      right. split; [reflexivity |]. eexists. split; [reflexivity | discriminate].
  - intros H. apply ret_pair_inv in H. destruct H as [<- <-].
    right. split; [reflexivity |]. eexists. split; [reflexivity | discriminate].
Qed.

(** X5: whenever [predict_strategy] returns, it returns either an estimate
    and no error, or no estimate and a non-empty error string; never both
    and never neither. *)
Theorem estimate_or_error
        (track compound : string) (stops : int_or_str)
        (res : option StrategyEstimate) (err : option string) :
  predict_strategy track compound stops = Ret (res, err) ->
  (exists est, res = Some est /\ err = None) \/
  (res = None /\ exists msg, err = Some msg /\ msg <> "").
Proof. apply predict_strategy_result_or_error. Qed.


(** X7: a compound other than "SOFT" and "HARD" (the comparison is exact, so
    "soft" is one) gives the outcome of "MEDIUM". *)
Theorem unrecognised_compound_is_medium
        (track compound : string) (stops : int_or_str) :
  compound <> "SOFT" -> compound <> "HARD" ->
  predict_strategy track compound stops = predict_strategy track "MEDIUM" stops.
Proof.
  intros NS NH. unfold predict_strategy.
  destruct (get_session_safe (IntArg 2023) track "R") as [[session |] | e];
    cbn [bind]; try reflexivity.
  destruct (LinearRegression.fit _ _) as [m | e]; cbn [bind try_except];
    [| reflexivity].
  destruct (py_int stops) as [n | e]; cbn [bind try_except]; [| reflexivity].
  rewrite (fold_left_pointwise (lap_step compound (stop_laps_for n) 22)
                               (lap_step "MEDIUM" (stop_laps_for n) 22)).
  - reflexivity.
  - intros acc item. apply lap_step_neutral; assumption.
Qed.

(** X8: a stop count of 0 or less gives exactly the outcome of 0 stops: no
    pit loss and the recommendation "No Stops". *)
Theorem nonpositive_stops_as_zero
        (track compound : string) (stops : int_or_str) (n : Z) :
  py_int stops = Ret n -> (n <= 0)%Z ->
  predict_strategy track compound stops
  = predict_strategy track compound (IntArg 0).
Proof.
  intros Hn Hle. unfold predict_strategy.
  destruct (get_session_safe (IntArg 2023) track "R") as [[session |] | e];
    cbn [bind]; try reflexivity.
  destruct (LinearRegression.fit _ _) as [m | e]; cbn [bind try_except];
    [| reflexivity].
  rewrite Hn. cbn [py_int bind try_except].
  rewrite (stop_laps_for_other n) by lia.
  change (stop_laps_for 0) with (@nil Z).
  unfold stop_string. destruct (Z.ltb_spec 0 n); [lia |]. reflexivity.
Qed.

(** X9: a stop count of 3 or more is estimated as no stop at all: the
    estimate has the total time and the degradation of the estimate for 0
    stops, and an empty stop recommendation. *)
Theorem three_or_more_stops_as_none
        (track compound : string) (stops : int_or_str) (n : Z)
        (zero : StrategyEstimate) (err : option string) :
  py_int stops = Ret n -> (3 <= n)%Z ->
  predict_strategy track compound (IntArg 0) = Ret (Some zero, err) ->
  predict_strategy track compound stops
  = Ret (Some (mk_estimate (total_time_min zero) (degradation zero) ""), None).
Proof.
  intros Hn Hge H0.
  destruct (predict_strategy_inv _ _ _ _ _ H0)
    as (session & m & n0 & Hs & Hm & Hn0 & Ht & Hd & _).
  injection Hn0 as <-.
  rewrite (predict_strategy_success _ compound _ _ _ _ Hs Hm Hn).
  rewrite Ht, Hd. rewrite (stop_laps_for_other n) by lia.
  change (stop_laps_for 0) with (@nil Z).
  unfold stop_string. destruct (Z.ltb_spec 0 n); [| lia]. reflexivity.
Qed.

(** X10: on one circuit and compound, the estimate for 0 stops is strictly
    quicker than that for 1 stop, which is strictly quicker than that for 2
    stops. *)
Theorem stops_cost_time
        (track compound : string)
        (none one two : StrategyEstimate) (e0 e1 e2 : option string) :
  predict_strategy track compound (IntArg 0) = Ret (Some none, e0) ->
  predict_strategy track compound (IntArg 1) = Ret (Some one, e1) ->
  predict_strategy track compound (IntArg 2) = Ret (Some two, e2) ->
  total_time_min none < total_time_min one /\
  total_time_min one < total_time_min two.
Proof.
  intros H0 H1 H2.
  destruct (predict_strategy_inv _ _ _ _ _ H0)
    as (session & m & n0 & Hs & Hm & Hn0 & T0 & _ & _).
  destruct (predict_strategy_inv _ _ _ _ _ H1)
    as (session1 & m1 & n1 & Hs1 & Hm1 & Hn1 & T1 & _ & _).
  destruct (predict_strategy_inv _ _ _ _ _ H2)
    as (session2 & m2 & n2 & Hs2 & Hm2 & Hn2 & T2 & _ & _).
  rewrite Hs in Hs1, Hs2. injection Hs1 as <-. injection Hs2 as <-.
  rewrite Hm in Hm1, Hm2. injection Hm1 as <-. injection Hm2 as <-.
  injection Hn0 as <-. injection Hn1 as <-. injection Hn2 as <-.
  rewrite T0, T1, T2.
  pose proof (race_time_total_sum m compound 0) as S0.
  pose proof (race_time_total_sum m compound 1) as S1.
  pose proof (race_time_total_sum m compound 2) as S2.
  rewrite adjusted_race_seconds_closed in S0, S1, S2.
  change (inject_Z (Z.of_nat (List.length (stop_laps_for 0)))) with 0 in S0.
  change (inject_Z (Z.of_nat (List.length (stop_laps_for 1)))) with 1 in S1.
  change (inject_Z (Z.of_nat (List.length (stop_laps_for 2)))) with 2 in S2.
  split; apply py_round_2_lt.
  - rewrite S0, S1, !Qdiv_60. lra.
  - rewrite S1, S2, !Qdiv_60. lra.
Qed.


(** X12: the degradation of an estimate depends on the circuit only: two
    returned estimates for one circuit have the same degradation, whatever
    the compounds and stop counts. *)
Theorem degradation_of_circuit
        (track compound1 compound2 : string) (stops1 stops2 : int_or_str)
        (est1 est2 : StrategyEstimate) (e1 e2 : option string) :
  predict_strategy track compound1 stops1 = Ret (Some est1, e1) ->
  predict_strategy track compound2 stops2 = Ret (Some est2, e2) ->
  degradation est1 = degradation est2.
Proof.
  intros H1 H2.
  destruct (predict_strategy_inv _ _ _ _ _ H1)
    as (session & m & n & Hs & Hm & _ & _ & D1 & _).
  destruct (predict_strategy_inv _ _ _ _ _ H2)
    as (session2 & m2 & n2 & Hs2 & Hm2 & _ & _ & D2 & _).
  rewrite Hs in Hs2. injection Hs2 as <-.
  rewrite Hm in Hm2. injection Hm2 as <-.
  now rewrite D1, D2.
Qed.

End EstimatorMore.

(* ------------------------------------------------------------------ *)
(** ** Further properties of the comparator *)

Lemma prefix_app (a b : string) : prefix a (a ++ b) = true.
Proof.
  induction a as [| c a IH]; simpl.
  - destruct b; reflexivity.
  - destruct (ascii_dec c c); [exact IH | contradiction].
Qed.

Lemma prefix_refl (a : string) : prefix a a = true.
Proof.
  induction a as [| c a IH]; simpl.
  - reflexivity.
  - destruct (ascii_dec c c); [exact IH | contradiction].
Qed.

Lemma prefix_contains (a h : string) : prefix a h = true -> contains a h = true.
Proof. intros H. destruct h; cbn [contains]; rewrite H; reflexivity. Qed.

Lemma contains_app_r (a p s : string) :
  contains a s = true -> contains a (p ++ s) = true.
Proof.
  intros H. induction p as [| c p IH]; cbn [append contains].
  - exact H.
  - rewrite IH. apply orb_true_r.
Qed.

Lemma contains_middle (a p s : string) : contains a (p ++ a ++ s) = true.
Proof. apply contains_app_r, prefix_contains, prefix_app. Qed.

Lemma dropna_length (ls : list Lap) : (List.length (dropna ls) <= List.length ls)%nat.
Proof.
  induction ls as [| l ls IH]; simpl.
  - lia.
  - destruct (LapNumber l), (LapTime l); simpl; lia.
Qed.

Lemma dropna_complete (ls : list Lap) :
  Forall (fun l => LapNumber l <> None /\ LapTime l <> None) ls ->
  List.length (dropna ls) = List.length ls.
Proof.
  induction 1 as [| l ls [Hn Ht] _ IH]; simpl.
  - reflexivity.
  - destruct (LapNumber l); [| contradiction].
    destruct (LapTime l); [| contradiction]. simpl. now rewrite IH.
Qed.

Lemma substring_length_le (n : nat) (s : string) :
  (String.length (substring 0 n s) <= n)%nat.
Proof.
  revert s. induction n as [| n IH]; intros s.
  - destruct s; simpl; lia.
  - destruct s as [| c s]; simpl; [lia |]. specialize (IH s). lia.
Qed.

(** Inversion of a returned comparison into its session and the two
    results of [extract_tel]. *)
Ltac comparison_inversion H session t1 t2 Hs H1 H2 E1 E2 :=
  destruct (get_detailed_telemetry_inv _ _ _ _ _ _ H)
    as (session & t1 & t2 & Hs & H1 & H2 & E1 & E2);
  rewrite (get_detailed_telemetry_success _ _ _ _ _ _ _ Hs H1 H2 E1 E2) in H;
  apply ret_pair_inv in H.

Section ComparatorMore.

Context {collaborators : Collaborators}.

(** What a returned speed trace holds. *)
Lemma extract_tel_some (lap : option Lap) (driver_code : string) (t : SpeedTrace) :
  extract_tel lap driver_code = Ret (Some t) ->
  exists l tel,
    lap = Some l /\ get_telemetry l = Ret tel /\
    df_col tel "Distance" = Ret (trace_distance t) /\
    df_col tel "Speed" = Ret (trace_speed t) /\
    trace_driver t = driver_code /\
    trace_lap_time t = substring 0 10 (after_days (py_str (lap_time_cell l))).
Proof.
  unfold extract_tel. destruct lap as [l |]; cbn [try_except exn_cls caught];
    [| discriminate].
  destruct (get_telemetry l) as [tel | e] eqn:Ht; cbn [bind try_except].
  2:{ destruct (caught (exn_cls e)); discriminate. }
  destruct (df_col tel "Distance") as [dist | e] eqn:Hd; cbn [bind try_except].
  2:{ destruct (caught (exn_cls e)); discriminate. }
  destruct (df_col tel "Speed") as [speed | e] eqn:Hv; cbn [bind try_except].
  2:{ destruct (caught (exn_cls e)); discriminate. }
  intros H. injection H as <-. exists l, tel. cbn. repeat split; assumption.
Qed.

(** X13: when the race session does not resolve, the comparator returns no
    result and a message that contains the race name and the year as it was
    passed. *)
Theorem unresolved_race_named
        (year : int_or_str) (race d1 d2 : string) :
  get_session_safe year race "R" = Ret None ->
  exists msg,
    get_detailed_telemetry year race d1 d2 = Ret (None, Some msg) /\
    msg = "Session data not found for " ++ race ++ " " ++ fmt_int_or_str year /\
    contains race msg = true /\
    contains (fmt_int_or_str year) msg = true.
Proof.
  intros H. eexists. split; [| split; [reflexivity | split]].
  - unfold get_detailed_telemetry. rewrite H. reflexivity.
  - apply contains_middle.
  - apply contains_app_r, contains_app_r, contains_app_r.
    apply prefix_contains, prefix_refl.
Qed.

(** [extract_tel] lets through only exceptions of unhandled classes. *)
Lemma extract_tel_raise_class (lap : option Lap) (driver_code : string) (e : exn) :
  extract_tel lap driver_code = Raise e -> caught (exn_cls e) = false.
Proof.
  unfold extract_tel.
  destruct (match lap with
            | Some l => _
            | None => _
            end) as [o | e0]; cbn [try_except]; [discriminate |].
  destruct (caught (exn_cls e0)) eqn:Hc; [discriminate |].
  intros H. injection H as <-. exact Hc.
Qed.

(** X14: every returned comparison carries no error, the event name of the
    session, one pace series per requested driver in the order of the
    request, and at most two speed traces: those of the first and of the
    second driver, each at most once and in that order. *)
Theorem comparison_shape
        (year : int_or_str) (race d1 d2 : string)
        (r : TelemetryComparison) (err : option string) :
  get_detailed_telemetry year race d1 d2 = Ret (Some r, err) ->
  exists session (keep1 keep2 : bool),
    get_session_safe year race "R" = Ret (Some session) /\
    err = None /\
    race_name r = EventName session /\
    map pace_driver (pace_data r) = [d1; d2] /\
    map trace_driver (telemetry_data r)
    = ((if keep1 then [d1] else []) ++ (if keep2 then [d2] else []))%list /\
    (List.length (telemetry_data r) <= 2)%nat.
Proof.
  intros H. comparison_inversion H session t1 t2 Hs H1 H2 E1 E2.
  destruct H as [Hr <-]. injection Hr as <-.
  exists session,
    (match t1 with Some _ => true | None => false end),
    (match t2 with Some _ => true | None => false end).
  cbn [race_name pace_data telemetry_data map pace_series pace_driver].
  repeat split; try assumption.
  - destruct t1 as [a |], t2 as [b |]; cbn [map app];
      repeat match goal with
             | E : extract_tel _ _ = Ret (Some _) |- _ =>
                 destruct (extract_tel_some _ _ _ E) as (? & ? & _ & _ & _ & _ & -> & _);
                 clear E
             end; reflexivity.
  - destruct t1, t2; simpl; lia.
Qed.

(** X15: when both drivers have representative laps and [extract_tel]
    returns [None] for both, the comparison is still returned, with an empty
    speed-trace list and both pace series. *)
Theorem both_extractions_failed
        (year : int_or_str) (race d1 d2 : string) (session : Session) :
  get_session_safe year race "R" = Ret (Some session) ->
  representative_laps session d1 <> [] ->
  representative_laps session d2 <> [] ->
  extract_tel (pick_fastest (representative_laps session d1)) d1 = Ret None ->
  extract_tel (pick_fastest (representative_laps session d2)) d2 = Ret None ->
  exists r,
    get_detailed_telemetry year race d1 d2 = Ret (Some r, None) /\
    telemetry_data r = [] /\
    map pace_driver (pace_data r) = [d1; d2].
Proof.
  intros Hs H1 H2 E1 E2.
  rewrite (get_detailed_telemetry_success _ _ _ _ _ _ _ Hs H1 H2 E1 E2).
  eexists. repeat split.
Qed.

(** X16: in every returned comparison the series are paired: each pace
    series has as many lap times as lap numbers, at most one per
    representative lap of its driver, and each speed trace has as many
    speeds as distances. *)
Theorem series_paired
        (year : int_or_str) (race d1 d2 : string)
        (r : TelemetryComparison) (err : option string) :
  get_detailed_telemetry year race d1 d2 = Ret (Some r, err) ->
  exists session,
    get_session_safe year race "R" = Ret (Some session) /\
    Forall2 (fun p d =>
               List.length (pace_x p) = List.length (pace_y p) /\
               (List.length (pace_x p)
                <= List.length (representative_laps session d))%nat)
            (pace_data r) [d1; d2] /\
    Forall (fun t => List.length (trace_distance t) = List.length (trace_speed t))
           (telemetry_data r).
Proof.
  intros H. comparison_inversion H session t1 t2 Hs H1 H2 E1 E2.
  destruct H as [Hr _]. injection Hr as <-.
  exists session. cbn [pace_data telemetry_data].
  split; [exact Hs | split].
  - repeat constructor; cbn [pace_series pace_x pace_y];
      rewrite ?length_map; try reflexivity; apply dropna_length.
  - assert (P : forall lap d o,
               extract_tel lap d = Ret o ->
               Forall (fun t => List.length (trace_distance t)
                                = List.length (trace_speed t))
                      (match o with Some t => [t] | None => [] end)).
    { intros lap d [t |] E; [| constructor].
      destruct (extract_tel_some _ _ _ E) as (l & tel & _ & _ & Hd & Hv & _).
      repeat constructor.
      rewrite (df_col_length _ _ _ Hd), (df_col_length _ _ _ Hv). reflexivity. }
    apply Forall_app. split; eapply P; eassumption.
Qed.

(** The two shapes of what [get_detailed_telemetry] returns. *)
Lemma get_detailed_telemetry_result_or_error
        (year : int_or_str) (race d1 d2 : string)
        (res : option TelemetryComparison) (err : option string) :
  get_detailed_telemetry year race d1 d2 = Ret (res, err) ->
  (exists r, res = Some r /\ err = None) \/
  (res = None /\ exists msg, err = Some msg /\ msg <> "").
Proof.
  unfold get_detailed_telemetry.
  destruct (get_session_safe year race "R") as [[session |] | e];
    cbn [bind]; [| | discriminate].
  - destruct (is_empty _ || is_empty _); cbn [try_except].
    + intros H. apply ret_pair_inv in H. destruct H as [<- <-].
      right. split; [reflexivity |]. eexists. split; [reflexivity | discriminate].
    + destruct (extract_tel _ d1) as [t1 | e] eqn:E1; cbn [bind try_except].
      2:{ rewrite (extract_tel_raise_class _ _ _ E1). discriminate. }
      destruct (extract_tel _ d2) as [t2 | e] eqn:E2; cbn [bind try_except].
      2:{ rewrite (extract_tel_raise_class _ _ _ E2). discriminate. }
      rewrite resolve_winner_described. cbn [bind].
      intros H. apply ret_pair_inv in H. destruct H as [<- <-].
      left. eexists. split; reflexivity.
  - intros H. apply ret_pair_inv in H. destruct H as [<- <-].
    right. split; [reflexivity |]. eexists. split; [reflexivity |].
    intros E. simpl in E. discriminate.
Qed.

(** X17: whenever [get_detailed_telemetry] returns, it returns either a
    comparison and no error, or no comparison and a non-empty error string. *)
Theorem comparison_or_error
        (year : int_or_str) (race d1 d2 : string)
        (res : option TelemetryComparison) (err : option string) :
  get_detailed_telemetry year race d1 d2 = Ret (res, err) ->
  (exists r, res = Some r /\ err = None) \/
  (res = None /\ exists msg, err = Some msg /\ msg <> "").
Proof. apply get_detailed_telemetry_result_or_error. Qed.

(** X18: [get_detailed_telemetry] raises exactly when loading the session
    raises, or both drivers have representative laps and [extract_tel]
    raises for the first driver, or returns for the first and raises for the
    second.  The winner block and the pace series never make it raise. *)
Theorem comparator_raises
        (year : int_or_str) (race d1 d2 : string) (e : exn) :
  get_detailed_telemetry year race d1 d2 = Raise e
  <-> get_session_safe year race "R" = Raise e \/
      exists session,
        get_session_safe year race "R" = Ret (Some session) /\
        representative_laps session d1 <> [] /\
        representative_laps session d2 <> [] /\
        (extract_tel (pick_fastest (representative_laps session d1)) d1 = Raise e \/
         exists t1,
           extract_tel (pick_fastest (representative_laps session d1)) d1 = Ret t1 /\
           extract_tel (pick_fastest (representative_laps session d2)) d2 = Raise e).
Proof.
  unfold get_detailed_telemetry, representative_laps.
  destruct (get_session_safe year race "R") as [[session |] | e0] eqn:Hs;
    cbn [bind].
  - destruct (pick_quicklaps (pick_driver (laps session) d1)) as [| a1 l1] eqn:L1.
    { cbn [is_empty orb try_except]. split; [discriminate |].
      intros [H | (s & H0 & H1 & _)]; [discriminate |].
      injection H0 as <-. rewrite L1 in H1. congruence. }
    destruct (pick_quicklaps (pick_driver (laps session) d2)) as [| a2 l2] eqn:L2.
    { cbn [is_empty orb try_except]. split; [discriminate |].
      intros [H | (s & H0 & _ & H2 & _)]; [discriminate |].
      injection H0 as <-. rewrite L2 in H2. congruence. }
    cbn [is_empty orb].
    destruct (extract_tel (pick_fastest (a1 :: l1)) d1) as [t1 | e1] eqn:E1;
      cbn [bind try_except].
    + destruct (extract_tel (pick_fastest (a2 :: l2)) d2) as [t2 | e2] eqn:E2;
        cbn [bind try_except].
      * rewrite resolve_winner_described. cbn [bind]. split; [discriminate |].
        intros [H | (s & H0 & _ & _ & H3)]; [discriminate |].
        injection H0 as <-. rewrite L1, L2 in H3.
        destruct H3 as [H3 | (t & _ & H3)]; congruence.
      * rewrite (extract_tel_raise_class _ _ _ E2). split.
        -- intros H. injection H as <-. right. exists session.
           rewrite L1, L2. repeat split; try discriminate.
           right. exists t1. split; assumption.
        -- intros [H | (s & H0 & _ & _ & H3)]; [discriminate |].
           injection H0 as <-. rewrite L1, L2 in H3.
           destruct H3 as [H3 | (t & _ & H3)]; congruence.
    + rewrite (extract_tel_raise_class _ _ _ E1). split.
      * intros H. injection H as <-. right. exists session.
        rewrite L1, L2. repeat split; try discriminate. left. exact E1.
      * intros [H | (s & H0 & _ & _ & H3)]; [discriminate |].
        injection H0 as <-. rewrite L1, L2 in H3.
        destruct H3 as [H3 | (t & H3 & _)]; congruence.
  - split; [discriminate |].
    intros [H | (s & H0 & _)]; discriminate.
  - split.
    + intros H. injection H as <-. now left.
    + intros [H | (s & H0 & _)]; [| discriminate].
      injection H as <-. reflexivity.
Qed.

(** X19: [extract_tel] returns [None] exactly when there is a lap and
    reading its telemetry raises a ValueError, IndexError or KeyError or the
    telemetry lacks the column [Distance] or [Speed]; it raises exactly when
    there is no lap (an AttributeError) or reading the telemetry raises an
    exception of another class. *)
Theorem extract_tel_cases (lap : option Lap) (driver_code : string) :
  (extract_tel lap driver_code = Ret None
   <-> exists l,
       lap = Some l /\
       ((exists e, get_telemetry l = Raise e /\ caught (exn_cls e) = true) \/
        (exists tel,
            get_telemetry l = Ret tel /\
            (index_of "Distance" (df_columns tel) = None \/
             index_of "Speed" (df_columns tel) = None)))) /\
  (forall e,
      extract_tel lap driver_code = Raise e
      <-> (lap = None /\
           e = mk_exn AttributeError
                      "'NoneType' object has no attribute 'get_telemetry'") \/
          (exists l,
              lap = Some l /\ get_telemetry l = Raise e /\
              caught (exn_cls e) = false)).
Proof.
  unfold extract_tel. destruct lap as [l |]; cbn [try_except exn_cls caught].
  - destruct (get_telemetry l) as [tel | e1] eqn:Ht; cbn [bind try_except].
    + unfold df_col.
      destruct (index_of "Distance" (df_columns tel)) eqn:Hd;
        cbn [bind try_except key_error exn_cls caught].
      * destruct (index_of "Speed" (df_columns tel)) eqn:Hv;
          cbn [bind try_except key_error exn_cls caught].
        -- split; [split | intros e; split]; try discriminate.
           ++ intros (l' & Hl & [(e & He & _) | (t & Ht' & Hc)]);
                injection Hl as <-; rewrite Ht in *; [discriminate |].
              injection Ht' as <-. destruct Hc; congruence.
           ++ intros [[Hl _] | (l' & Hl & He & _)]; [discriminate |].
              injection Hl as <-. rewrite Ht in He. discriminate.
        -- split; [split | intros e; split]; try discriminate.
           ++ intros _. exists l. split; [reflexivity |]. right.
              exists tel. split; [exact Ht | now right].
           ++ reflexivity.
           ++ intros [[Hl _] | (l' & Hl & He & _)]; [discriminate |].
              injection Hl as <-. rewrite Ht in He. discriminate.
      * split; [split | intros e; split]; try discriminate.
        -- intros _. exists l. split; [reflexivity |]. right.
           exists tel. split; [exact Ht | now left].
        -- reflexivity.
        -- intros [[Hl _] | (l' & Hl & He & _)]; [discriminate |].
           injection Hl as <-. rewrite Ht in He. discriminate.
    + destruct (caught (exn_cls e1)) eqn:Hc.
      * split; [split | intros e; split]; try discriminate.
        -- intros _. exists l. split; [reflexivity |]. left.
           exists e1. split; [exact Ht | exact Hc].
        -- reflexivity.
        -- intros [[Hl _] | (l' & Hl & He & Hc')]; [discriminate |].
           injection Hl as <-. rewrite Ht in He. injection He as <-. congruence.
      * split; [split | intros e; split]; try discriminate.
        -- intros (l' & Hl & [(e & He & Hc') | (t & Ht' & _)]);
             injection Hl as <-; rewrite Ht in *; [| discriminate].
           injection He as <-. congruence.
        -- intros H. injection H as <-. right. exists l.
           repeat split; assumption.
        -- intros [[Hl _] | (l' & Hl & He & _)]; [discriminate |].
           injection Hl as <-. rewrite Ht in He. injection He as <-. reflexivity.
  - split; [split | intros e; split]; try discriminate.
    + intros (l & Hl & _). discriminate.
    + intros H. injection H as <-. left. split; reflexivity.
    + intros [[_ ->] | (l & Hl & _)]; [reflexivity | discriminate].
Qed.

(** X20: in every returned comparison the lap time of a speed trace has at
    most 10 characters. *)
Theorem lap_time_at_most_ten
        (year : int_or_str) (race d1 d2 : string)
        (r : TelemetryComparison) (err : option string) :
  get_detailed_telemetry year race d1 d2 = Ret (Some r, err) ->
  Forall (fun t => (String.length (trace_lap_time t) <= 10)%nat) (telemetry_data r).
Proof.
  intros H. comparison_inversion H session t1 t2 Hs H1 H2 E1 E2.
  destruct H as [Hr _]. injection Hr as <-. cbn [telemetry_data].
  assert (P : forall lap d o,
             extract_tel lap d = Ret o ->
             Forall (fun t => (String.length (trace_lap_time t) <= 10)%nat)
                    (match o with Some t => [t] | None => [] end)).
  { intros lap d [t |] E; [| constructor].
    destruct (extract_tel_some _ _ _ E) as (l & tel & _ & _ & _ & _ & _ & Hlt).
    constructor; [| constructor]. rewrite Hlt. apply substring_length_le. }
  apply Forall_app. split; eapply P; eassumption.
Qed.

End ComparatorMore.

(* ------------------------------------------------------------------ *)
(** ** The text after the day prefix *)

Lemma sapp_nil_r (s : string) : s ++ "" = s.
Proof. induction s as [| c s IH]; simpl; [reflexivity | now rewrite IH]. Qed.

Lemma sapp_assoc (a b c : string) : (a ++ b) ++ c = a ++ b ++ c.
Proof. induction a as [| x a IH]; simpl; [reflexivity | now rewrite IH]. Qed.

Lemma sapp_eq_nil (a b : string) : a ++ b = "" -> a = "" /\ b = "".
Proof. destruct a; simpl; intros H; [now split | discriminate]. Qed.

(** A non-empty suffix of [cur ++ c] is a suffix of [cur] followed by [c]. *)
Lemma suffix_snoc (cur p q : string) (c : ascii) :
  cur ++ String c "" = p ++ q -> q <> "" ->
  exists q', q = q' ++ String c "" /\ cur = p ++ q'.
Proof.
  revert cur. induction p as [| a p IH]; intros cur E Hq.
  - exists cur. simpl in E. split; [now symmetry | reflexivity].
  - destruct cur as [| a' cur]; simpl in E.
    + injection E as _ E. symmetry in E. apply sapp_eq_nil in E.
      destruct E as [_ E]. contradiction.
    + injection E as -> E. destruct (IH cur E Hq) as (q' & -> & ->).
      exists q'. split; reflexivity.
Qed.

Lemma last_cons_nonempty {A : Type} (x d : A) (l : list A) :
  l <> [] -> last (x :: l) d = last l d.
Proof. destruct l; [congruence | reflexivity]. Qed.

Section Split.

Variable sep : string.
Hypothesis sep_nonempty : prefix sep "" = false.

Lemma split_go_nonempty (s cur : string) (skip : nat) : split_go sep skip cur s <> [].
Proof.
  revert cur skip. induction s as [| c s IH]; intros cur skip; cbn [split_go].
  - discriminate.
  - destruct skip; [| apply IH].
    destruct (prefix sep (String c s)); [discriminate | apply IH].
Qed.

(** A piece no suffix of which starts a separator contains none. *)
Lemma no_start_no_occurrence (cur : string) :
  (forall p q, cur = p ++ q -> q <> "" -> prefix sep (q ++ "") = false) ->
  contains sep cur = false.
Proof.
  induction cur as [| c cur IH]; intros H; cbn [contains].
  - rewrite sep_nonempty. reflexivity.
  - rewrite <- (sapp_nil_r (String c cur)) at 1.
    rewrite (H "" (String c cur) eq_refl) by discriminate.
    cbn [orb]. apply IH. intros p q E Hq.
    apply (H (String c p) q); [simpl; now rewrite E | exact Hq].
Qed.

Lemma last_piece_no_occurrence (s cur : string) (skip : nat) :
  (forall p q, cur = p ++ q -> q <> "" -> prefix sep (q ++ s) = false) ->
  (skip <> 0%nat -> cur = "") ->
  contains sep (last (split_go sep skip cur s) "") = false.
Proof.
  revert cur skip. induction s as [| c s IH]; intros cur skip Hinv Hskip;
    cbn [split_go].
  - cbn [last]. apply no_start_no_occurrence. exact Hinv.
  - destruct skip as [| k].
    + destruct (prefix sep (String c s)) eqn:Hp.
      * rewrite last_cons_nonempty by apply split_go_nonempty.
        apply IH; [| reflexivity].
        intros p q E Hq. symmetry in E. apply sapp_eq_nil in E.
        destruct E as [_ E]. contradiction.
      * apply IH; [| congruence].
        intros p q E Hq.
        destruct (suffix_snoc _ _ _ _ E Hq) as (q' & -> & ->).
        rewrite sapp_assoc. cbn [append].
        destruct q' as [| a q'].
        -- exact Hp.
        -- apply (Hinv p (String a q') eq_refl). discriminate.
    + rewrite (Hskip (Nat.neq_succ_0 k)). apply IH; [| reflexivity].
      intros p q E Hq. symmetry in E. apply sapp_eq_nil in E.
      destruct E as [_ E]. contradiction.
Qed.

Lemma last_piece_suffix (s cur : string) (skip : nat) (pre : string) :
  (skip <> 0%nat -> cur = "") ->
  exists p, pre ++ cur ++ s = p ++ last (split_go sep skip cur s) "".
Proof.
  revert cur skip pre. induction s as [| c s IH]; intros cur skip pre Hskip;
    cbn [split_go].
  - exists pre. cbn [last]. now rewrite sapp_nil_r.
  - destruct skip as [| k].
    + destruct (prefix sep (String c s)).
      * rewrite last_cons_nonempty by apply split_go_nonempty.
        destruct (IH "" (String.length sep - 1)%nat (pre ++ cur ++ String c "")
                     (fun _ => eq_refl)) as [p Hp].
        exists p. rewrite <- Hp. cbn [append].
        rewrite <- !sapp_assoc. rewrite (sapp_assoc _ (String c "") s).
        reflexivity.
      * destruct (IH (cur ++ String c "") 0%nat pre) as [p Hp]; [congruence |].
        exists p. rewrite <- Hp. rewrite (sapp_assoc cur). reflexivity.
    + rewrite (Hskip (Nat.neq_succ_0 k)).
      destruct (IH "" k (pre ++ String c "") (fun _ => eq_refl)) as [p Hp].
      exists p. rewrite <- Hp. cbn [append]. rewrite sapp_assoc. reflexivity.
Qed.

End Split.

Lemma after_days_suffix (s : string) : exists p, s = p ++ after_days s.
Proof.
  unfold after_days, py_split.
  destruct (last_piece_suffix " days " s "" 0 "") as [p Hp]; [congruence |].
  exists p. exact Hp.
Qed.

Lemma after_days_no_days (s : string) : contains " days " (after_days s) = false.
Proof.
  unfold after_days, py_split.
  apply last_piece_no_occurrence; [reflexivity | | congruence].
  intros p q E Hq. symmetry in E. apply sapp_eq_nil in E.
  destruct E as [_ E]. contradiction.
Qed.

Lemma prefix_of_substring (a : string) (n : nat) (x : string) :
  prefix a (substring 0 n x) = true -> prefix a x = true.
Proof.
  revert a n. induction x as [| c x IH]; intros a n.
  - destruct n; simpl; auto.
  - destruct n as [| n]; cbn [substring].
    + destruct a as [| b a]; [reflexivity | simpl; discriminate].
    + destruct a as [| b a]; [reflexivity |]. cbn [prefix].
      destruct (ascii_dec b c); [apply IH | discriminate].
Qed.

Lemma contains_of_substring (a : string) (n : nat) (x : string) :
  prefix a "" = false ->
  contains a (substring 0 n x) = true -> contains a x = true.
Proof.
  intros Ha. revert n. induction x as [| c x IH]; intros n.
  - destruct n; simpl; auto.
  - destruct n as [| n]; cbn [substring contains].
    + rewrite Ha. discriminate.
    + intros H. apply orb_true_iff in H. apply orb_true_iff.
      destruct H as [H | H].
      * left. apply (prefix_of_substring a (S n) (String c x)). exact H.
      * right. apply (IH n). exact H.
Qed.

(** X21: the text kept by [str(v).split(' days ')[-1]] is a suffix of the
    text it is taken from and contains no " days ". *)
Theorem after_days_suffix_without_days (s : string) :
  (exists p, s = p ++ after_days s) /\ contains " days " (after_days s) = false.
Proof. split; [apply after_days_suffix | apply after_days_no_days]. Qed.

Section Pages.

Context {collaborators : Collaborators}.

(** X22: in every returned comparison neither the winner's time nor the lap
    time of a speed trace contains " days ". *)
Theorem times_without_days
        (year : int_or_str) (race d1 d2 : string)
        (r : TelemetryComparison) (err : option string) :
  get_detailed_telemetry year race d1 d2 = Ret (Some r, err) ->
  contains " days " (winner_time (winner_info r)) = false /\
  Forall (fun t => contains " days " (trace_lap_time t) = false) (telemetry_data r).
Proof.
  intros H. comparison_inversion H session t1 t2 Hs H1 H2 E1 E2.
  destruct H as [Hr _]. injection Hr as <-. cbn [winner_info telemetry_data].
  split.
  - unfold described_winner.
    destruct (find _ _); [| reflexivity].
    destruct (cell _ _ "Abbreviation"); [| reflexivity].
    destruct (cell _ _ "TeamName"); [| reflexivity].
    destruct (cell _ _ "Time"); [| reflexivity].
    cbn [winner_time]. apply after_days_no_days.
  - assert (P : forall lap d o,
               extract_tel lap d = Ret o ->
               Forall (fun t => contains " days " (trace_lap_time t) = false)
                      (match o with Some t => [t] | None => [] end)).
    { intros lap d [t |] E; [| constructor].
      destruct (extract_tel_some _ _ _ E) as (l & tel & _ & _ & _ & _ & _ & Hlt).
      constructor; [| constructor]. rewrite Hlt.
      destruct (contains " days " (substring 0 10 _)) eqn:C; [| reflexivity].
      apply contains_of_substring in C; [| reflexivity].
      rewrite after_days_no_days in C. discriminate. }
    apply Forall_app. split; eapply P; eassumption.
Qed.

(** X23: when the route [simulator] gets through a POST, the page shows
    what the estimator returned: the estimate and no error, or a non-empty
    error and no estimate, never both and never neither; the map is there
    exactly when [get_circuit_layout] returned a layout. *)
Theorem simulator_page_result_or_error
        (track compound stops : string) (page : SimulatorPage) :
  simulator_post track compound stops = Ret page ->
  get_circuit_layout track = Ret (page_map page) /\
  predict_strategy track compound (StrArg stops)
  = Ret (page_result page, page_error page) /\
  ((exists est, page_result page = Some est /\ page_error page = None) \/
   (page_result page = None /\
    exists msg, page_error page = Some msg /\ msg <> "")).
Proof.
  unfold simulator_post.
  destruct (get_circuit_layout track) as [layout | e]; cbn [bind];
    [| discriminate].
  destruct (predict_strategy track compound (StrArg stops)) as [[res err] | e] eqn:Hp;
    cbn [bind]; [| discriminate].
  intros H. injection H as <-. cbn [page_map page_result page_error].
  destruct (predict_strategy_result_or_error _ _ _ _ _ Hp)
    as [(est & -> & ->) | (-> & msg & -> & Hmsg)].
  - cbn [truthy_str truthy_dict]. repeat split.
    + destruct layout; reflexivity.
    + left. exists est. split; reflexivity.
  - assert (T : truthy_str (Some msg) = true).
    { cbn [truthy_str]. destruct (String.eqb_spec msg ""); [contradiction | reflexivity]. }
    rewrite T. repeat split.
    + destruct layout; reflexivity.
    + right. split; [reflexivity |]. exists msg. split; [reflexivity | exact Hmsg].
Qed.

(** X24: when the route [telemetry] gets through a POST, the page shows
    what the comparator returned: the comparison and no error, or a
    non-empty error and no comparison. *)
Theorem telemetry_page_data_or_error
        (year race d1 d2 : string) (page : TelemetryPage) :
  telemetry_post year race d1 d2 = Ret page ->
  get_detailed_telemetry (StrArg year) race d1 d2
  = Ret (tpage_data page, tpage_error page) /\
  ((exists r, tpage_data page = Some r /\ tpage_error page = None) \/
   (tpage_data page = None /\
    exists msg, tpage_error page = Some msg /\ msg <> "")).
Proof.
  unfold telemetry_post.
  destruct (get_detailed_telemetry (StrArg year) race d1 d2)
    as [[res err] | e] eqn:Hp; cbn [bind]; [| discriminate].
  intros H. injection H as <-. cbn [tpage_data tpage_error].
  destruct (get_detailed_telemetry_result_or_error _ _ _ _ _ _ Hp)
    as [(r & -> & ->) | (-> & msg & -> & Hmsg)].
  - cbn [truthy_str truthy_dict]. split; [reflexivity |].
    left. exists r. split; reflexivity.
  - assert (T : truthy_str (Some msg) = true).
    { cbn [truthy_str]. destruct (String.eqb_spec msg ""); [contradiction | reflexivity]. }
    rewrite T. split; [reflexivity |].
    right. split; [reflexivity |]. exists msg. split; [reflexivity | exact Hmsg].
Qed.

End Pages.

(* ------------------------------------------------------------------ *)
(** ** The further properties on the fixtures *)

Section OnWeekend.

#[local] Existing Instance Weekend.collaborators.

Lemma circuit_layout_shape_witness :
  exists layout,
    get_circuit_layout "Bahrain" = Ret (Some layout) /\
    exists session lap telemetry,
      get_session_safe (IntArg 2023) "Bahrain" "Q" = Ret (Some session) /\
      pick_fastest (laps session) = Some lap /\
      get_telemetry lap = Ret telemetry /\
      df_col telemetry "X" = Ret (layout_x layout) /\
      df_col telemetry "Y" = Ret (layout_y layout) /\
      layout_name layout = EventName session /\
      List.length (layout_x layout) = List.length (df_rows telemetry) /\
      List.length (layout_y layout) = List.length (layout_x layout).
Proof.
  eexists. split; [vm_compute; reflexivity |].
  apply (circuit_layout_shape "Bahrain"). vm_compute. reflexivity.
Defined.

Lemma simulator_page_result_or_error_witness :
  exists page,
    simulator_post "Bahrain" "SOFT" "1" = Ret page /\
    get_circuit_layout "Bahrain" = Ret (page_map page) /\
    predict_strategy "Bahrain" "SOFT" (StrArg "1")
    = Ret (page_result page, page_error page) /\
    ((exists est, page_result page = Some est /\ page_error page = None) \/
     (page_result page = None /\
      exists msg, page_error page = Some msg /\ msg <> "")).
Proof.
  eexists. split; [vm_compute; reflexivity |].
  apply (simulator_page_result_or_error "Bahrain" "SOFT" "1").
  vm_compute. reflexivity.
Defined.

End OnWeekend.

Section OnFixtureMore.

#[local] Existing Instance Fixture.collaborators.

Lemma estimate_or_error_witness :
  exists res err,
    predict_strategy "Bahrain" "SOFT" (StrArg "two") = Ret (res, err) /\
    ((exists est, res = Some est /\ err = None) \/
     (res = None /\ exists msg, err = Some msg /\ msg <> "")).
Proof.
  eexists. eexists. split; [vm_compute; reflexivity |].
  apply (estimate_or_error "Bahrain" "SOFT" (StrArg "two")).
  vm_compute. reflexivity.
Defined.

Lemma unrecognised_compound_is_medium_witness :
  "soft" <> "SOFT" /\ "soft" <> "HARD" /\
  predict_strategy "Bahrain" "soft" (IntArg 1)
  = predict_strategy "Bahrain" "MEDIUM" (IntArg 1).
Proof.
  assert (NS : "soft" <> "SOFT") by discriminate.
  assert (NH : "soft" <> "HARD") by discriminate.
  split; [exact NS | split; [exact NH |]].
  exact (unrecognised_compound_is_medium "Bahrain" "soft" (IntArg 1) NS NH).
Defined.

Lemma nonpositive_stops_as_zero_witness :
  py_int (StrArg "-1") = Ret (-1)%Z /\ (-1 <= 0)%Z /\
  predict_strategy "Bahrain" "HARD" (StrArg "-1")
  = predict_strategy "Bahrain" "HARD" (IntArg 0).
Proof.
  assert (Hn : py_int (StrArg "-1") = Ret (-1)%Z) by (vm_compute; reflexivity).
  assert (Hle : (-1 <= 0)%Z) by lia.
  split; [exact Hn | split; [exact Hle |]].
  exact (nonpositive_stops_as_zero "Bahrain" "HARD" (StrArg "-1") (-1) Hn Hle).
Defined.

Lemma three_or_more_stops_as_none_witness :
  py_int (IntArg 4) = Ret 4%Z /\ (3 <= 4)%Z /\
  exists zero,
    predict_strategy "Bahrain" "HARD" (IntArg 0) = Ret (Some zero, None) /\
    predict_strategy "Bahrain" "HARD" (IntArg 4)
    = Ret (Some (mk_estimate (total_time_min zero) (degradation zero) ""), None).
Proof.
  assert (Hn : py_int (IntArg 4) = Ret 4%Z) by reflexivity.
  assert (Hge : (3 <= 4)%Z) by lia.
  split; [exact Hn | split; [exact Hge |]].
  eexists. split; [vm_compute; reflexivity |].
  apply (three_or_more_stops_as_none "Bahrain" "HARD" (IntArg 4) 4 _ None Hn Hge).
  vm_compute. reflexivity.
Defined.

Lemma stops_cost_time_witness :
  exists none one two,
    predict_strategy "Bahrain" "MEDIUM" (IntArg 0) = Ret (Some none, None) /\
    predict_strategy "Bahrain" "MEDIUM" (IntArg 1) = Ret (Some one, None) /\
    predict_strategy "Bahrain" "MEDIUM" (IntArg 2) = Ret (Some two, None) /\
    total_time_min none < total_time_min one /\
    total_time_min one < total_time_min two.
Proof.
  eexists. eexists. eexists.
  split; [vm_compute; reflexivity |].
  split; [vm_compute; reflexivity |].
  split; [vm_compute; reflexivity |].
  apply (stops_cost_time "Bahrain" "MEDIUM" _ _ _ None None None);
    vm_compute; reflexivity.
Defined.


Lemma degradation_of_circuit_witness :
  exists est1 est2,
    predict_strategy "Bahrain" "SOFT" (IntArg 2) = Ret (Some est1, None) /\
    predict_strategy "Bahrain" "HARD" (StrArg "0") = Ret (Some est2, None) /\
    degradation est1 = degradation est2.
Proof.
  eexists. eexists.
  split; [vm_compute; reflexivity |].
  split; [vm_compute; reflexivity |].
  apply (degradation_of_circuit "Bahrain" "SOFT" "HARD" (IntArg 2) (StrArg "0")
                                _ _ None None);
    vm_compute; reflexivity.
Defined.

Lemma unresolved_race_named_witness :
  get_session_safe (StrArg "2022") "Monaco" "R" = Ret None /\
  exists msg,
    get_detailed_telemetry (StrArg "2022") "Monaco" "LEC" "SAI" = Ret (None, Some msg) /\
    msg = "Session data not found for " ++ "Monaco" ++ " " ++ fmt_int_or_str (StrArg "2022") /\
    contains "Monaco" msg = true /\
    contains (fmt_int_or_str (StrArg "2022")) msg = true.
Proof.
  assert (H : get_session_safe (StrArg "2022") "Monaco" "R" = Ret None)
    by (vm_compute; reflexivity).
  split; [exact H |].
  exact (unresolved_race_named (StrArg "2022") "Monaco" "LEC" "SAI" H).
Defined.

Lemma comparison_shape_witness :
  exists r,
    get_detailed_telemetry (StrArg "2023") "Bahrain" "VER" "PER" = Ret (Some r, None) /\
    exists session (keep1 keep2 : bool),
      get_session_safe (StrArg "2023") "Bahrain" "R" = Ret (Some session) /\
      @None string = None /\
      race_name r = EventName session /\
      map pace_driver (pace_data r) = ["VER"; "PER"] /\
      map trace_driver (telemetry_data r)
      = ((if keep1 then ["VER"] else []) ++ (if keep2 then ["PER"] else []))%list /\
      (List.length (telemetry_data r) <= 2)%nat.
Proof.
  eexists. split; [vm_compute; reflexivity |].
  apply (comparison_shape (StrArg "2023") "Bahrain" "VER" "PER" _ None).
  vm_compute. reflexivity.
Defined.

Lemma both_extractions_failed_witness :
  get_session_safe (StrArg "2023") "Bahrain" "R" = Ret (Some Fixture.bahrain) /\
  representative_laps Fixture.bahrain "PER" <> [] /\
  extract_tel (pick_fastest (representative_laps Fixture.bahrain "PER")) "PER"
  = Ret None /\
  exists r,
    get_detailed_telemetry (StrArg "2023") "Bahrain" "PER" "PER" = Ret (Some r, None) /\
    telemetry_data r = [] /\
    map pace_driver (pace_data r) = ["PER"; "PER"].
Proof.
  assert (Hs : get_session_safe (StrArg "2023") "Bahrain" "R"
               = Ret (Some Fixture.bahrain)) by (vm_compute; reflexivity).
  assert (Hl : representative_laps Fixture.bahrain "PER" <> [])
    by (vm_compute; discriminate).
  assert (E : extract_tel (pick_fastest (representative_laps Fixture.bahrain "PER")) "PER"
              = Ret None) by (vm_compute; reflexivity).
  split; [exact Hs | split; [exact Hl | split; [exact E |]]].
  exact (both_extractions_failed (StrArg "2023") "Bahrain" "PER" "PER"
                                 Fixture.bahrain Hs Hl Hl E E).
Defined.

Lemma series_paired_witness :
  exists r,
    get_detailed_telemetry (StrArg "2023") "Bahrain" "VER" "PER" = Ret (Some r, None) /\
    exists session,
      get_session_safe (StrArg "2023") "Bahrain" "R" = Ret (Some session) /\
      Forall2 (fun p d =>
                 List.length (pace_x p) = List.length (pace_y p) /\
                 (List.length (pace_x p)
                  <= List.length (representative_laps session d))%nat)
              (pace_data r) ["VER"; "PER"] /\
      Forall (fun t => List.length (trace_distance t) = List.length (trace_speed t))
             (telemetry_data r).
Proof.
  eexists. split; [vm_compute; reflexivity |].
  apply (series_paired (StrArg "2023") "Bahrain" "VER" "PER" _ None).
  vm_compute. reflexivity.
Defined.

Lemma comparison_or_error_witness :
  exists res err,
    get_detailed_telemetry (StrArg "2023") "Bahrain" "VER" "HAM" = Ret (res, err) /\
    ((exists r, res = Some r /\ err = None) \/
     (res = None /\ exists msg, err = Some msg /\ msg <> "")).
Proof.
  eexists. eexists. split; [vm_compute; reflexivity |].
  apply (comparison_or_error (StrArg "2023") "Bahrain" "VER" "HAM").
  vm_compute. reflexivity.
Defined.

Lemma lap_time_at_most_ten_witness :
  exists r,
    get_detailed_telemetry (StrArg "2023") "Bahrain" "VER" "PER" = Ret (Some r, None) /\
    Forall (fun t => (String.length (trace_lap_time t) <= 10)%nat) (telemetry_data r).
Proof.
  eexists. split; [vm_compute; reflexivity |].
  apply (lap_time_at_most_ten (StrArg "2023") "Bahrain" "VER" "PER" _ None).
  vm_compute. reflexivity.
Defined.

Lemma times_without_days_witness :
  exists r,
    get_detailed_telemetry (StrArg "2023") "Bahrain" "VER" "PER" = Ret (Some r, None) /\
    contains " days " (winner_time (winner_info r)) = false /\
    Forall (fun t => contains " days " (trace_lap_time t) = false) (telemetry_data r).
Proof.
  eexists. split; [vm_compute; reflexivity |].
  apply (times_without_days (StrArg "2023") "Bahrain" "VER" "PER" _ None).
  vm_compute. reflexivity.
Defined.

Lemma telemetry_page_data_or_error_witness :
  exists page,
    telemetry_post "2023" "Bahrain" "VER" "HAM" = Ret page /\
    get_detailed_telemetry (StrArg "2023") "Bahrain" "VER" "HAM"
    = Ret (tpage_data page, tpage_error page) /\
    ((exists r, tpage_data page = Some r /\ tpage_error page = None) \/
     (tpage_data page = None /\
      exists msg, tpage_error page = Some msg /\ msg <> "")).
Proof.
  eexists. split; [vm_compute; reflexivity |].
  apply (telemetry_page_data_or_error "2023" "Bahrain" "VER" "HAM").
  vm_compute. reflexivity.
Defined.

End OnFixtureMore.
